(** * alquimia-oauth: the OAuth session of [src/assets/oauth/p-oauth.js]

    A shallow embedding of the [OAuth] class (constructor, [setSecret],
    [tryLogin], [login], [logout], [saveToken], [setHttpDefault],
    [decodeHash]) together with the browser and AngularJS services it
    talks to, and the properties of the specification stated over it.

    Conventions.
    - A JavaScript string is a [string]: a sequence of 8-bit code units.
      This is the domain on which [btoa] is defined (it raises on a code
      unit above 255) and the range of [atob]; the texts the class
      handles (URL fragments, cookie values, OAuth fields) live there.
    - A JavaScript value is [undefined], [null] or a string ([value]).
      The only numeric field, [expires_in], is used in date arithmetic
      that is kept symbolic: a cookie is written with the [expires_in]
      it was given, and the store dropping an entry whose time has
      passed is not modelled.
    - A JavaScript object is a finite map from property names to values.
    - The services ([$cookies], [$http], [location], [console]) are a
      record of their observable state plus the trace of calls made.
    - A method body is a function from the state (the object, the
      services, the promise being built) to a completion, normal or
      abrupt, and a new state. [$q] runs the function it is given at
      once and does not catch what it throws. *)

From Stdlib Require Import NArith Ascii.
From stdpp Require Import gmap strings list fin_maps.

Local Open Scope N_scope.

(** ** Strings: [split], [join], [substring] *)

Module JsString.

(** [s.split(sep)] for a one-character separator. *)
Fixpoint split (sep : ascii) (s : string) : list string :=
  match s with
  | EmptyString => [EmptyString]
  | String c r =>
      if decide (c = sep) then EmptyString :: split sep r
      else match split sep r with
           | h :: t => String c h :: t
           | [] => [String c EmptyString]
           end
  end.

(** [a.join(sep)] on an array of strings. *)
Fixpoint join (sep : string) (l : list string) : string :=
  match l with
  | [] => ""
  | [x] => x
  | x :: r => x +:+ sep +:+ join sep r
  end.

(** [s.substring(1)] *)
Definition substring1 (s : string) : string :=
  match s with
  | EmptyString => EmptyString
  | String _ r => r
  end.

(** [c] occurs in [s]. *)
Fixpoint mem (c : ascii) (s : string) : bool :=
  match s with
  | EmptyString => false
  | String d r => if decide (d = c) then true else mem c r
  end.

(** The last character of [s], if any. *)
Fixpoint last_char (s : string) : option ascii :=
  match s with
  | EmptyString => None
  | String c EmptyString => Some c
  | String _ r => last_char r
  end.

End JsString.

(** ** Base64: the browser's [btoa] and [atob] *)

Module Base64.

Definition alphabet : list ascii :=
  String.list_ascii_of_string
    "ABCDEFGHIJKLMNOPQRSTUVWXYZabcdefghijklmnopqrstuvwxyz0123456789+/".

Definition pad : ascii := "="%char.

(** The character of a six-bit group. *)
Definition char_of (n : N) : ascii := nth (N.to_nat n) alphabet pad.

(** The six-bit group of a character of the alphabet. *)
Fixpoint index_from (i : N) (l : list ascii) (c : ascii) : option N :=
  match l with
  | [] => None
  | d :: r => if decide (d = c) then Some i else index_from (N.succ i) r c
  end.

Definition value_of (c : ascii) : option N := index_from 0 alphabet c.

(** Encoding, three bytes to four characters, the tail padded. *)
Fixpoint encode (l : list N) : list ascii :=
  match l with
  | [] => []
  | [a] => [char_of (a / 4); char_of (a mod 4 * 16); pad; pad]
  | [a; b] =>
      [char_of (a / 4); char_of (a mod 4 * 16 + b / 16);
       char_of (b mod 16 * 4); pad]
  | a :: b :: c :: r =>
      char_of (a / 4) :: char_of (a mod 4 * 16 + b / 16)
        :: char_of (b mod 16 * 4 + c / 64) :: char_of (c mod 64)
        :: encode r
  end.

(** [btoa(s)] on a string of 8-bit code units. *)
Definition btoa (s : string) : string :=
  String.string_of_list_ascii (encode (N_of_ascii <$> String.list_ascii_of_string s)).

(** The forgiving decoder behind [atob]: ASCII whitespace is dropped;
    when the length is a multiple of four, one or two trailing pads
    are dropped; a length of 1 modulo 4 or a character outside the
    alphabet is an error; the six-bit groups are then regrouped, the
    bits left over at the end discarded. *)
Definition is_whitespace (c : ascii) : bool :=
  match c with
  | "009" | "010" | "012" | "013" | " " => true
  | _ => false
  end%char.

Definition strip_padding (l : list ascii) : list ascii :=
  if decide (N.of_nat (length l) mod 4 = 0) then
    match reverse l with
    | p :: q :: r =>
        if decide (p = pad) then
          if decide (q = pad) then reverse r else reverse (q :: r)
        else l
    | [p] => if decide (p = pad) then [] else l
    | [] => l
    end
  else l.

Fixpoint decode (l : list N) : list N :=
  match l with
  | a :: b :: c :: d :: r =>
      (a * 4 + b / 16) :: (b mod 16 * 16 + c / 4) :: (c mod 4 * 64 + d)
        :: decode r
  | [a; b; c] => [a * 4 + b / 16; b mod 16 * 16 + c / 4]
  | [a; b] => [a * 4 + b / 16]
  | _ => []
  end.

Definition atob (s : string) : option string :=
  let data := strip_padding (filter (λ c, is_whitespace c = false)
                               (String.list_ascii_of_string s)) in
  if decide (N.of_nat (length data) mod 4 = 1) then None
  else
    groups ← mapM value_of data;
    Some (String.string_of_list_ascii (ascii_of_N <$> decode groups)).

End Base64.

Import JsString Base64.

(** ** Values and objects *)

Inductive value :=
  | VUndef
  | VNull
  | VStr (s : string).

#[global] Instance value_eq_dec : EqDecision value.
Proof. solve_decision. Defined.

(** ToBoolean: [undefined], [null] and the empty string are falsy. *)
Definition truthy (v : value) : bool :=
  match v with
  | VStr (String _ _) => true
  | _ => false
  end.

(** ToString, as applied by template literals, property keys and [+]. *)
Definition to_string (v : value) : string :=
  match v with
  | VUndef => "undefined"
  | VNull => "null"
  | VStr s => s
  end.

(** The text [Array.prototype.join] uses for an element. *)
Definition join_field (v : value) : string :=
  match v with
  | VStr s => s
  | _ => ""
  end.

(** [a == b] *)
Definition loose_eq (a b : value) : bool :=
  match a, b with
  | VStr s, VStr t => bool_decide (s = t)
  | VStr _, _ | _, VStr _ => false
  | _, _ => true
  end.

(** [a === b] *)
Definition strict_eq (a b : value) : bool := bool_decide (a = b).

(** [a + b] where one operand is a string: concatenation. *)
Definition concat (a b : value) : string := to_string a +:+ to_string b.

(** A parameter with a default value: [f(x = d)]. *)
Definition default_arg (x d : value) : value :=
  match x with
  | VUndef => d
  | _ => x
  end.

(** [o.k], [undefined] when [o] has no such property. *)
Definition get (o : gmap string value) (k : string) : value :=
  default VUndef (o !! k).

(** [o[k] = v] on an object literal, [v] not an object: the inherited
    [__proto__] setter ignores such a value, every other key becomes an
    own property. *)
Definition set_prop (k : string) (v : value) (o : gmap string value)
  : gmap string value :=
  if decide (k = "__proto__") then o else <[k:=v]> o.

(** [a[i]] on an array of strings. *)
Definition index (a : list string) (i : nat) : value :=
  match a !! i with
  | Some s => VStr s
  | None => VUndef
  end.

(** ** [encodeURIComponent] on 8-bit code units *)

Module Uri.

Definition hex_digit (n : N) : ascii :=
  nth (N.to_nat n) (String.list_ascii_of_string "0123456789ABCDEF") "0"%char.

Definition percent (byte : N) (rest : string) : string :=
  String "%" (String (hex_digit (byte / 16))
                (String (hex_digit (byte mod 16)) rest)).

Definition unreserved (n : N) : bool :=
  ((65 <=? n) && (n <=? 90)) || ((97 <=? n) && (n <=? 122))
  || ((48 <=? n) && (n <=? 57))
  || bool_decide (n ∈ [45; 95; 46; 33; 126; 42; 39; 40; 41]).

Fixpoint encodeURIComponent (s : string) : string :=
  match s with
  | EmptyString => EmptyString
  | String c r =>
      let n := N_of_ascii c in
      if unreserved n then String c (encodeURIComponent r)
      else if n <? 128 then percent n (encodeURIComponent r)
      else percent (192 + n / 64)
             (percent (128 + n mod 64) (encodeURIComponent r))
  end.

End Uri.

(** ** The services *)

Inductive exn :=
  | Error (msg : string)
  | ReferenceError (name : string)
  | InvalidCharacterError.

Record request := Request {
  method : string;
  url : string;
  Authorization : string;
  data : gmap string value
}.

(** The calls a method makes on the services: [$cookies.get], [put]
    and [remove]; a read of [location.hash] and of
    [window.location.href]; [$location.hash(h)]; the assignments
    [location.hash = h] and [window.location.href = href];
    [location.reload()]; [$http(r)]; [console.warn(msg)],
    [console.error(msg)] and [console.error(arguments)]. *)
Inductive event :=
  | CookiesGet (key : string)
  | CookiesPut (key cookie : string) (expires_in : value)
  | CookiesRemove (key : string)
  | HashRead
  | HrefRead
  | RouterHash (h : string)
  | HashAssign (h : string)
  | HrefAssign (href : string)
  | Reload
  | Http (r : request)
  | ConsoleWarn (msg : string)
  | ConsoleError (msg : string)
  | ConsoleErrorArguments.

(** [cookies]: the [$cookies] store. [location_hash], [location_href]:
    [location.hash] and [window.location.href]. [ngRoute]: whether
    [angular.module('ngRoute')] finds the module. [withCredentials],
    [common_Authorization]: [$http.defaults.withCredentials] and
    [$http.defaults.headers.common.Authorization]. [globals]: the
    bindings of the global scope. [trace]: the calls made, oldest first. *)
Record world := World {
  cookies : gmap string string;
  location_hash : string;
  location_href : string;
  ngRoute : bool;
  withCredentials : bool;
  common_Authorization : option string;
  globals : gmap string value;
  trace : list event
}.

(** The promise built by [$q]: settled at most once. *)
Inductive settlement :=
  | Pending
  | Resolved (v : value)
  | Rejected (reason : value).

Record state := State {
  this : gmap string value;
  env : world;
  promise : settlement
}.

Inductive completion (A : Type) :=
  | Normal (a : A)
  | Throw (e : exn).
Arguments Normal {A} a.
Arguments Throw {A} e.

(** ** A state and exception monad for method bodies *)

Definition M (A : Type) : Type := state → completion A * state.

Definition ret {A} (a : A) : M A := λ s, (Normal a, s).

Definition bind {A B} (m : M A) (k : A → M B) : M B :=
  λ s, match m s with
       | (Normal a, s') => k a s'
       | (Throw e, s') => (Throw e, s')
       end.

Definition throw {A} (e : exn) : M A := λ s, (Throw e, s).

Declare Scope js_scope.
Delimit Scope js_scope with js.
Notation "'let*' x := m 'in' k" := (bind m (λ x, k))
  (at level 10, x name, m at level 100, k at level 200) : js_scope.
Notation "m ;; k" := (bind m (λ _, k))
  (at level 100, k at level 200, right associativity) : js_scope.
Local Open Scope js_scope.

Definition with_env (f : world → world) : M unit :=
  λ s, (Normal tt, State (this s) (f (env s)) (promise s)).

(** The world after further calls [evs] were made. *)
Definition log (evs : list event) (w : world) : world :=
  World (cookies w) (location_hash w) (location_href w) (ngRoute w)
    (withCredentials w) (common_Authorization w) (globals w)
    (trace w ++ evs).

(** The world with its cookie store changed by [f]. *)
Definition store (f : gmap string string → gmap string string) (w : world)
  : world :=
  World (f (cookies w)) (location_hash w) (location_href w) (ngRoute w)
    (withCredentials w) (common_Authorization w) (globals w) (trace w).

(** The world with [location.hash] set to [h]. *)
Definition with_hash (h : string) (w : world) : world :=
  World (cookies w) h (location_href w) (ngRoute w)
    (withCredentials w) (common_Authorization w) (globals w) (trace w).

(** The world with credentialed requests on and the default
    [Authorization] header set to [header]. *)
Definition with_header (header : string) (w : world) : world :=
  World (cookies w) (location_hash w) (location_href w) (ngRoute w)
    true (Some header) (globals w) (trace w).

Definition emit (e : event) : M unit := with_env (log [e]).

(** [this.k] *)
Definition read (k : string) : M value := λ s, (Normal (get (this s) k), s).

(** [this.k = v] *)
Definition write (k : string) (v : value) : M unit :=
  λ s, (Normal tt, State (<[k:=v]> (this s)) (env s) (promise s)).

(** A free identifier, resolved in the global scope. *)
Definition global (name : string) : M value :=
  λ s, match globals (env s) !! name with
       | Some v => (Normal v, s)
       | None => (Throw (ReferenceError name), s)
       end.

Definition settle (p : settlement) : M unit :=
  λ s, (Normal tt,
        State (this s) (env s)
          (match promise s with Pending => p | settled => settled end)).

Definition resolve : M unit := settle (Resolved VUndef).
Definition reject (reason : value) : M unit := settle (Rejected reason).

(** [$cookies.get(key)] *)
Definition cookies_get (key : value) : M value :=
  emit (CookiesGet (to_string key)) ;;
  λ s, (Normal (match cookies (env s) !! to_string key with
                | Some c => VStr c
                | None => VUndef
                end), s).

(** [$cookies.put(key, cookie, {expires: now + expires_in * 1000})] *)
Definition cookies_put (key : value) (cookie : string) (expires_in : value)
  : M unit :=
  emit (CookiesPut (to_string key) cookie expires_in) ;;
  with_env (store (<[to_string key:=cookie]>)).

(** [$cookies.remove(key)] *)
Definition cookies_remove (key : value) : M unit :=
  emit (CookiesRemove (to_string key)) ;;
  with_env (store (delete (to_string key))).

(** [location.hash] *)
Definition hash_read : M string :=
  emit HashRead ;; λ s, (Normal (location_hash (env s)), s).

(** [window.location.href] *)
Definition href_read : M string :=
  emit HrefRead ;; λ s, (Normal (location_href (env s)), s).

(** [try { angular.module('ngRoute'); $location.hash('') }
    catch (e) { location.hash = '' }] *)
Definition clear_hash : M unit :=
  let* routed := (λ s, (Normal (ngRoute (env s)), s)) in
  (if routed : bool then emit (RouterHash "") else emit (HashAssign "")) ;;
  with_env (with_hash "").

(** ** The [OAuth] class *)

Module OAuth.

(** [server.replace(/([^\/])$/, '$1/')]: the pattern can only match
    the last character, and does so when it is not a slash. *)
Fixpoint replace_final (server : string) : string :=
  match server with
  | EmptyString => EmptyString
  | String c EmptyString =>
      if decide (c = "/"%char) then String c EmptyString
      else String c (String "/" EmptyString)
  | String c r => String c (replace_final r)
  end.

(** [new OAuth(server, clientId, cookieKey = 'qOAuth2')] *)
Definition new (server clientId cookieKey : value)
  : completion (gmap string value) :=
  let cookieKey := default_arg cookieKey (VStr "qOAuth2") in
  if negb (truthy server) then
    Throw (Error "OAuth: please provide the server URL")
  else if negb (truthy clientId) then
    Throw (Error "OAuth: please provide the client ID")
  else
    Normal
      (<["COOKIE_KEY":=cookieKey]>
      (<["SERVER":=VStr (replace_final (to_string server) +:+ "oauth/")]>
      (<["CLIENT_ID":=clientId]>
      (<["TOKEN":=VStr "token"]>
      (<["AUTHORIZE":=VStr "authorize"]>
      (<["TYPE_IMPLICIT":=VStr "token"]>
      (<["TYPE_USER_CREDENTIALS":=VStr "password"]>
      (<["TYPE_CLIENT_CREDENTIALS":=VStr "client_credentials"]> ∅)))))))).

(** [setSecret(clientSecret)] *)
Definition setSecret (clientSecret : value) : M unit :=
  emit (ConsoleWarn
    "In production, you should use TYPE_IMPLICIT when logging in within JavaScript.") ;;
  write "CLIENT_SECRET" clientSecret.

(** [setHttpDefault(accessToken)] *)
Definition setHttpDefault (accessToken : value) : M unit :=
  with_env (with_header ("Bearer " +:+ to_string accessToken)).

(** The cookie text built by [saveToken]:
    [btoa([data.access_token, data.token_type, data.scope].join(':'))] *)
Definition encode_token (data : gmap string value) : string :=
  btoa (join ":" [join_field (get data "access_token");
                  join_field (get data "token_type");
                  join_field (get data "scope")]).

(** The array read back from a cookie by [login]:
    [atob(cookie).split(':')] *)
Definition decode_cookie (cookie : string) : option (list string) :=
  split ":" <$> atob cookie.

(** [saveToken(data)] *)
Definition saveToken (data : gmap string value) : M unit :=
  let cookie := encode_token data in
  let* COOKIE_KEY := read "COOKIE_KEY" in
  cookies_put COOKIE_KEY cookie (get data "expires_in") ;;
  setHttpDefault (get data "access_token").

(** The body of the loop of [decodeHash]:
    [fragment = fragment.split('='); hashObj[fragment[0]] = fragment[1]] *)
Definition bind_piece (hashObj : gmap string value) (fragment : string)
  : gmap string value :=
  let fragment := split "=" fragment in
  set_prop (to_string (index fragment 0)) (index fragment 1) hashObj.

(** [decodeHash(hash)] *)
Definition decodeHash (hash : string) : gmap string value :=
  match hash with
  | EmptyString => ∅
  | String c r =>
      let hash := if decide (c = "/"%char) then r else hash in
      foldl bind_piece ∅ (split "&" hash)
  end.

(** The closure of [login] that takes the token from the fragment;
    [true] when it did. *)
Definition from_hash : M bool :=
  let* h := hash_read in
  let hash := decodeHash (substring1 h) in
  if truthy (get hash "access_token") then
    clear_hash ;;
    write "accessToken" (get hash "access_token") ;;
    saveToken hash ;;
    resolve ;;
    ret true
  else ret false.

(** The callbacks given to [$http(...).then]. *)
Definition token_success (response_data : gmap string value) : M unit :=
  write "accessToken" (get response_data "access_token") ;;
  saveToken response_data ;;
  resolve.

Definition token_failure : M unit :=
  emit ConsoleErrorArguments.

(** The request of the token exchange; its identifiers [SERVER],
    [TOKEN], [CLIENT_ID] and [CLIENT_SECRET] are free. *)
Definition token_request (type : value) (data : gmap string value)
  : M unit :=
  let* SERVER := global "SERVER" in
  let* TOKEN := global "TOKEN" in
  let* CLIENT_ID := global "CLIENT_ID" in
  let* CLIENT_SECRET := global "CLIENT_SECRET" in
  emit (Http (Request "POST" (concat SERVER TOKEN)
                ("Basic" +:+ btoa (to_string CLIENT_ID +:+ ":"
                                     +:+ to_string CLIENT_SECRET))
                (<["grant_type":=type]> data))).

(** The redirect of the Implicit grant. *)
Definition authorize (type : value) : M unit :=
  let* CLIENT_ID := read "CLIENT_ID" in
  let* href := href_read in
  let requestObj :=
    [("response_type", type); ("client_id", CLIENT_ID);
     ("redirect_uri", VStr (Uri.encodeURIComponent href))] in
  let request :=
    "?" +:+ join "&" ((λ p, fst p +:+ "=" +:+ to_string (snd p))
                        <$> requestObj) in
  let* SERVER := read "SERVER" in
  let* AUTHORIZE := read "AUTHORIZE" in
  emit (HrefAssign (concat SERVER AUTHORIZE +:+ request)).

(** [login(type = this.TYPE_IMPLICIT, isTry = false, username, password)]:
    the function given to [$q], run when the promise is built. *)
Definition login (type : value) (isTry : bool) (username password : value)
  : M unit :=
  let* TYPE_IMPLICIT := read "TYPE_IMPLICIT" in
  let type := default_arg type TYPE_IMPLICIT in
  let* TYPE_USER_CREDENTIALS := read "TYPE_USER_CREDENTIALS" in
  if loose_eq type TYPE_USER_CREDENTIALS
     && negb (truthy username && truthy password)
  then reject (VStr "Username and password not provided")
  else
    let* accessToken := read "accessToken" in
    if truthy accessToken then resolve
    else
      let* COOKIE_KEY := read "COOKIE_KEY" in
      let* cookie := cookies_get COOKIE_KEY in
      if truthy cookie then
        match decode_cookie (to_string cookie) with
        | None => throw InvalidCharacterError
        | Some data =>
            write "accessToken" (index data 0) ;;
            setHttpDefault (index data 0) ;;
            resolve
        end
      else
        let* h := hash_read in
        let hash := substring1 h in
        let* found :=
          (if truthy (VStr hash) then from_hash else ret false) in
        if found : bool then ret tt
        else if isTry then reject VUndef
        else
          let* TYPE_CLIENT_CREDENTIALS := read "TYPE_CLIENT_CREDENTIALS" in
          let exchange (data : gmap string value) : M unit :=
            let* CLIENT_SECRET := read "CLIENT_SECRET" in
            if truthy CLIENT_SECRET then token_request type data
            else emit (ConsoleError
                         "OAuth: please provide the client secret.") in
          if strict_eq type TYPE_USER_CREDENTIALS then
            exchange (<["password":=password]> (<["username":=username]> ∅))
          else if strict_eq type TYPE_CLIENT_CREDENTIALS then
            exchange ∅
          else if strict_eq type TYPE_IMPLICIT then authorize type
          else ret tt.

(** [tryLogin(type = this.TYPE_IMPLICIT)] *)
Definition tryLogin (type : value) : M unit :=
  let* TYPE_IMPLICIT := read "TYPE_IMPLICIT" in
  login (default_arg type TYPE_IMPLICIT) true VUndef VUndef.

(** [logout()] *)
Definition logout : M unit :=
  write "accessToken" VNull ;;
  (let* COOKIE_KEY := read "COOKIE_KEY" in cookies_remove COOKIE_KEY) ;;
  emit Reload.

(** A call of a method that returns the promise of [$q]: the function
    runs against a pending promise. *)
Definition call {A} (m : M A) (o : gmap string value) (w : world)
  : completion A * state :=
  m (State o w Pending).

End OAuth.

(** ** Notions used to state the properties *)

(** A session: an object that carries the constants the constructor
    assigns. No method of the class changes them. *)
Record is_session (o : gmap string value) : Prop := Session {
  session_client_credentials :
    o !! "TYPE_CLIENT_CREDENTIALS" = Some (VStr "client_credentials");
  session_user_credentials :
    o !! "TYPE_USER_CREDENTIALS" = Some (VStr "password");
  session_implicit : o !! "TYPE_IMPLICIT" = Some (VStr "token");
  session_authorize : o !! "AUTHORIZE" = Some (VStr "authorize");
  session_token : o !! "TOKEN" = Some (VStr "token")
}.

(** The name of the cookie of a session. *)
Definition storage_key (o : gmap string value) : string :=
  to_string (get o "COOKIE_KEY").

(** The in-memory credential, by the field names of the specification. *)
Definition credential (o : gmap string value) : value * value * value :=
  (get o "accessToken", get o "tokenType", get o "scope").

(** [s] ends with [suffix]. *)
Definition ends_with (suffix s : string) : Prop := ∃ p, s = p +:+ suffix.

(** A base URL that ends with exactly one separator followed by [oauth/]. *)
Definition normalized (server : string) : Prop :=
  ends_with "/oauth/" server ∧ ¬ ends_with "//oauth/" server.

(** Calls that leave the page or change its URL. *)
Definition is_navigation (e : event) : bool :=
  match e with
  | HrefAssign _ | Reload | HashAssign _ | RouterHash _ => true
  | _ => false
  end.

(** Calls that send a request. *)
Definition is_request (e : event) : bool :=
  match e with
  | Http _ => true
  | _ => false
  end.



(** The operations that can set the in-memory credential: a call of
    [login], and the arrival of the answer to its token request. *)
Inductive operation :=
  | Login (type : value) (isTry : bool) (username password : value)
  | TokenResponse (response_data : gmap string value).

Definition perform (op : operation) : M unit :=
  match op with
  | Login type isTry username password =>
      OAuth.login type isTry username password
  | TokenResponse response_data => OAuth.token_success response_data
  end.

(** The key-value reading of a fragment, stated without [split('=')]:
    the key of a piece is the text before its first [=], its value the
    text between the first and the second [=], [undefined] when the
    piece has no [=]. *)
Fixpoint before (c : ascii) (s : string) : string :=
  match s with
  | EmptyString => EmptyString
  | String d r => if decide (d = c) then EmptyString else String d (before c r)
  end.

Fixpoint after (c : ascii) (s : string) : option string :=
  match s with
  | EmptyString => None
  | String d r => if decide (d = c) then Some r else after c r
  end.

Definition piece_key (piece : string) : string := before "=" piece.

Definition piece_value (piece : string) : value :=
  match after "=" piece with
  | Some rest => VStr (before "=" rest)
  | None => VUndef
  end.

(** The pieces of a fragment: none for the empty fragment, otherwise
    the fragment less one leading slash, cut at every [&]. *)
Definition pieces (hash : string) : list string :=
  match hash with
  | EmptyString => []
  | String c r =>
      JsString.split "&" (if decide (c = "/"%char) then r else hash)
  end.

(** The session built by [new OAuth('https://example.com', 'app')], in a
    page at [https://app.example/page] with no cookie and no fragment. *)
Definition example_session : gmap string value :=
  <["COOKIE_KEY":=VStr "qOAuth2"]>
  (<["SERVER":=VStr "https://example.com/oauth/"]>
  (<["CLIENT_ID":=VStr "app"]>
  (<["TOKEN":=VStr "token"]>
  (<["AUTHORIZE":=VStr "authorize"]>
  (<["TYPE_IMPLICIT":=VStr "token"]>
  (<["TYPE_USER_CREDENTIALS":=VStr "password"]>
  (<["TYPE_CLIENT_CREDENTIALS":=VStr "client_credentials"]> ∅))))))).

Definition example_world : world :=
  World ∅ "" "https://app.example/page" false false None ∅ [].

(** The page of [example_world] with the four free identifiers of the
    token request bound as globals. *)
Definition example_globals : gmap string value :=
  <["CLIENT_SECRET":=VStr "s3cret"]>
  (<["CLIENT_ID":=VStr "app"]>
  (<["TOKEN":=VStr "token"]>
  (<["SERVER":=VStr "https://example.com/oauth/"]> ∅))).

Definition example_world_with_globals : world :=
  World ∅ "" "https://app.example/page" false false None example_globals [].

(** ** Further notions *)

(** The state a [login] from the fragment ends in. *)
Definition after_fragment (o : gmap string value) (w : world) : state :=
  let hash := OAuth.decodeHash (substring1 (location_hash w)) in
  State (<["accessToken":=get hash "access_token"]> o)
    (with_header ("Bearer " +:+ to_string (get hash "access_token"))
       (store (<[storage_key o:=OAuth.encode_token hash]>)
          (with_hash ""
             (log [CookiesGet (storage_key o); HashRead; HashRead;
                   if ngRoute w then RouterHash "" else HashAssign "";
                   CookiesPut (storage_key o) (OAuth.encode_token hash)
                     (get hash "expires_in")] w))))
    (Resolved VUndef).

(** The fragment [k1=v1&...&kn=vn] of a list of keys and values. *)
Definition fragment_of (l : list (string * string)) : string :=
  join "&" ((λ p, p.1 +:+ "=" +:+ p.2) <$> l).

(** A key or a value that can stand in a fragment as it is. *)
Definition plain (s : string) : Prop :=
  mem "&" s = false ∧ mem "=" s = false.




(** * Properties *)

(** ** Sanity checks of the built-ins *)

Example split_colon : split ":" "tok1:bearer:read" = ["tok1"; "bearer"; "read"].
Proof. reflexivity. Qed.
Example split_empty : split "&" "" = [""].
Proof. reflexivity. Qed.
Example split_eq : split "=" "a=b=c" = ["a"; "b"; "c"].
Proof. reflexivity. Qed.
Example join_colon : join ":" ["tok1"; "bearer"; "read"] = "tok1:bearer:read".
Proof. reflexivity. Qed.
Example btoa_tok1 : btoa "tok1:bearer:read" = "dG9rMTpiZWFyZXI6cmVhZA==".
Proof. reflexivity. Qed.
Example btoa_two : btoa "app:s3cret" = "YXBwOnMzY3JldA==".
Proof. reflexivity. Qed.
Example atob_tok1 : atob "dG9rMTpiZWFyZXI6cmVhZA==" = Some "tok1:bearer:read".
Proof. reflexivity. Qed.
Example atob_unpadded : atob "YQ" = Some "a".
Proof. reflexivity. Qed.
Example atob_bad : atob "a" = None.
Proof. reflexivity. Qed.
Example atob_bad_char : atob "ab!d" = None.
Proof. reflexivity. Qed.
Example encodeURIComponent_href :
  Uri.encodeURIComponent "https://app.example/page?a=b#c"
  = "https%3A%2F%2Fapp.example%2Fpage%3Fa%3Db%23c".
Proof. reflexivity. Qed.
Example decodeHash_pairs :
  OAuth.decodeHash "access_token=tok2&token_type=bearer"
  = <["token_type":=VStr "bearer"]> (<["access_token":=VStr "tok2"]> ∅).
Proof. reflexivity. Qed.
Example decodeHash_router_slash :
  OAuth.decodeHash "/access_token=tok2" = <["access_token":=VStr "tok2"]> ∅.
Proof. reflexivity. Qed.
Example decodeHash_no_value :
  OAuth.decodeHash "flag" = <["flag":=VUndef]> ∅.
Proof. reflexivity. Qed.

(** ** Base64: decoding inverts encoding *)

Ltac euclid := zify; Z.to_euclidean_division_equations; lia.

Section Base64_facts.


Lemma group_facts n :
  n < 64 →
  value_of (char_of n) = Some n ∧ char_of n ≠ pad
  ∧ is_whitespace (char_of n) = false.
Proof.
  intros Hn.
  assert (Forall (λ n, value_of (char_of n) = Some n ∧ char_of n ≠ pad
                       ∧ is_whitespace (char_of n) = false)
            (N.of_nat <$> seq 0 64)) as HF.
  { apply (bool_decide_unpack _). vm_compute. exact I. }
  rewrite Forall_forall in HF. apply HF.
  apply list_elem_of_fmap. exists (N.to_nat n). split; [lia|].
  apply elem_of_seq. lia.
Qed.










End Base64_facts.

(** ** Strings *)

Section String_facts.

Lemma append_cons c a b : String c a +:+ b = String c (a +:+ b).
Proof. done. Qed.

Lemma append_nil_l a : "" +:+ a = a.
Proof. done. Qed.

Lemma append_assoc a b c : (a +:+ b) +:+ c = a +:+ (b +:+ c).
Proof. induction a as [|x a IH]; [done|]. by rewrite !append_cons, IH. Qed.

Lemma chars_append a b :
  String.list_ascii_of_string (a +:+ b)
  = String.list_ascii_of_string a ++ String.list_ascii_of_string b.
Proof. induction a as [|x a IH]; [done|]. rewrite append_cons. cbn. by rewrite IH. Qed.

Lemma chars_inj a b :
  String.list_ascii_of_string a = String.list_ascii_of_string b → a = b.
Proof.
  intros H. rewrite <-(String.string_of_list_ascii_of_string a),
    <-(String.string_of_list_ascii_of_string b). by rewrite H.
Qed.

Lemma append_cancel_r a b c : a +:+ c = b +:+ c → a = b.
Proof.
  intros H. apply chars_inj. apply (f_equal String.list_ascii_of_string) in H.
  rewrite !chars_append in H. by apply app_inv_tail in H.
Qed.

Lemma last_append_char a c : JsString.last_char (a +:+ String c "") = Some c.
Proof.
  induction a as [|x a IH]; [done|]. rewrite append_cons.
  cbn [JsString.last_char]. destruct (a +:+ String c "") eqn:E; [|done].
  by destruct a.
Qed.

Lemma last_Some_append s c : JsString.last_char s = Some c → ∃ p, s = p +:+ String c "".
Proof.
  induction s as [|x s IH]; [done|]. cbn [JsString.last_char].
  destruct s as [|y s].
  - intros [= ->]. by exists "".
  - intros [p ->]%IH. by exists (String x p).
Qed.

Lemma split_no_sep sep a : mem sep a = false → split sep a = [a].
Proof.
  induction a as [|c a IH]; [done|]. cbn [mem split].
  destruct (decide (c = sep)); [done|]. intros ->%IH. done.
Qed.

Lemma split_append_sep sep a r :
  mem sep a = false → split sep (a +:+ String sep r) = a :: split sep r.
Proof.
  induction a as [|c a IH]; cbn [mem].
  - intros _. rewrite append_nil_l. cbn [split]. by rewrite decide_True.
  - destruct (decide (c = sep)); [done|]. intros Ha.
    rewrite append_cons. cbn [split]. rewrite decide_False by done.
    by rewrite IH.
Qed.

Lemma replace_final_last s :
  s ≠ "" →
  OAuth.replace_final s
  = if decide (JsString.last_char s = Some "/"%char) then s else s +:+ "/".
Proof.
  induction s as [|c s IH]; [done|]. intros _.
  destruct s as [|d s].
  - cbn [OAuth.replace_final JsString.last_char].
    destruct (decide (c = "/"%char)) as [->|]; [by rewrite decide_True|].
    rewrite decide_False by congruence. done.
  - change (OAuth.replace_final (String c (String d s)))
      with (String c (OAuth.replace_final (String d s))).
    rewrite IH by done. change (JsString.last_char (String c (String d s)))
      with (JsString.last_char (String d s)).
    by destruct (decide _).
Qed.

End String_facts.

(** ** The cookie text *)



(** ** The constructor *)

(** C7, counterexample. A server URL that ends with two separators
    keeps both: the base URL ends with [//oauth/]. *)
Lemma new_keeps_double_slash :
  ∃ o, OAuth.new (VStr "https://example.com//") (VStr "app") VUndef = Normal o
       ∧ get o "SERVER" = VStr "https://example.com//oauth/"
       ∧ ¬ normalized "https://example.com//oauth/".
Proof.
  eexists. split; [reflexivity|]. split; [reflexivity|].
  intros [_ H]. apply H. by exists "https://example.com".
Qed.

Lemma new_SERVER (server clientId : string) (cookieKey : value) :
  server ≠ "" → clientId ≠ "" →
  ∃ o, OAuth.new (VStr server) (VStr clientId) cookieKey = Normal o
       ∧ get o "SERVER" = VStr (OAuth.replace_final server +:+ "oauth/").
Proof.
  intros Hs Hc. unfold OAuth.new.
  destruct server as [|c0 server0] eqn:Es; [done|].
  destruct clientId as [|c1 clientId0] eqn:Ec; [done|].
  cbn [truthy negb to_string]. eexists. split; [reflexivity|].
  unfold get. rewrite lookup_insert_ne by done. by rewrite lookup_insert_eq.
Qed.

(** C7, amended. For a non-empty server URL and client id the
    constructor succeeds; the base URL is the server URL, followed by a
    separator when it does not end with one, followed by [oauth/].
    Separators are added, never removed: the base URL ends with exactly
    one separator before [oauth/] when the server URL does not end with
    two. *)
Theorem new_server_url (server clientId : string) (cookieKey : value) :
  server ≠ "" → clientId ≠ "" →
  let base :=
    (if decide (JsString.last_char server = Some "/"%char)
     then server else server +:+ "/") +:+ "oauth/" in
  ∃ o, OAuth.new (VStr server) (VStr clientId) cookieKey = Normal o
       ∧ get o "SERVER" = VStr base
       ∧ (¬ ends_with "//" server → normalized base).
Proof.
  intros Hs Hc base.
  destruct (new_SERVER server clientId cookieKey Hs Hc) as (o & Hnew & Hget).
  exists o. split; [done|]. subst base.
  rewrite replace_final_last in Hget by done. split; [done|].
  intros Hdouble. split.
  - destruct (decide _) as [[p ->]%last_Some_append|_].
    + exists p. by rewrite append_assoc.
    + exists server. by rewrite append_assoc.
  - intros [p Hp]. change "//oauth/" with ("//" +:+ "oauth/") in Hp.
    rewrite <-append_assoc in Hp. apply append_cancel_r in Hp.
    destruct (decide _) as [_|Hlast].
    + apply Hdouble. by exists p.
    + change "//" with ("/" +:+ "/") in Hp. rewrite <-append_assoc in Hp.
      apply append_cancel_r in Hp. apply Hlast. rewrite Hp.
      apply last_append_char.
Qed.

(** C7, amended, at [https://example.com] and at [https://example.com/]. *)
Lemma new_server_url_witness :
  (∃ o, OAuth.new (VStr "https://example.com") (VStr "app") VUndef = Normal o
        ∧ get o "SERVER" = VStr "https://example.com/oauth/"
        ∧ normalized "https://example.com/oauth/")
  ∧ (∃ o, OAuth.new (VStr "https://example.com/") (VStr "app") VUndef
          = Normal o
          ∧ get o "SERVER" = VStr "https://example.com/oauth/"
          ∧ normalized "https://example.com/oauth/").
Proof.
  assert (∀ s c, c ≠ "/"%char → JsString.last_char s = Some c
                 → ¬ ends_with "//" s) as Hno.
  { intros s c Hc Hs [p Hp]. rewrite Hp in Hs.
    change "//" with ("/" +:+ "/") in Hs. rewrite <-append_assoc in Hs.
    rewrite last_append_char in Hs. congruence. }
  split.
  - destruct (new_server_url "https://example.com" "app" VUndef)
      as (o & Hnew & Hget & Hnorm); [done..|].
    exists o. split; [done|]. split; [done|].
    apply Hnorm. by apply (Hno _ "m"%char).
  - destruct (new_server_url "https://example.com/" "app" VUndef)
      as (o & Hnew & Hget & Hnorm); [done..|].
    exists o. split; [done|]. split; [done|].
    apply Hnorm. intros [p Hp].
    change "//" with ("/" +:+ "/") in Hp.
    change "https://example.com/" with ("https://example.com" +:+ "/") in Hp.
    rewrite <-append_assoc in Hp. apply append_cancel_r in Hp.
    apply (f_equal JsString.last_char) in Hp.
    rewrite last_append_char in Hp. discriminate.
Defined.

(** ** Running [login] *)

Ltac run :=
  cbv [OAuth.call OAuth.login OAuth.tryLogin OAuth.from_hash OAuth.saveToken
       OAuth.setHttpDefault OAuth.authorize OAuth.token_request
       OAuth.token_success OAuth.token_failure OAuth.setSecret OAuth.logout
       bind ret read write emit with_env cookies_get cookies_put
       cookies_remove hash_read href_read clear_hash resolve reject settle
       global throw this env promise].

Ltac proj :=
  cbn [cookies location_hash location_href ngRoute withCredentials
       common_Authorization globals trace log store with_hash with_header].

Ltac step := repeat (run; proj; cbn [truthy negb andb to_string fst snd]).

Section Session_facts.

Context (o : gmap string value) (Ho : is_session o).

Lemma get_TYPE_IMPLICIT : get o "TYPE_IMPLICIT" = VStr "token".
Proof. unfold get. by rewrite (session_implicit o Ho). Qed.

Lemma get_TYPE_USER_CREDENTIALS : get o "TYPE_USER_CREDENTIALS" = VStr "password".
Proof. unfold get. by rewrite (session_user_credentials o Ho). Qed.

Lemma get_TYPE_CLIENT_CREDENTIALS :
  get o "TYPE_CLIENT_CREDENTIALS" = VStr "client_credentials".
Proof. unfold get. by rewrite (session_client_credentials o Ho). Qed.

End Session_facts.

Lemma example_session_new :
  OAuth.new (VStr "https://example.com") (VStr "app") VUndef
  = Normal example_session.
Proof. reflexivity. Qed.

Lemma example_session_is_session : is_session example_session.
Proof. by split. Qed.

Lemma new_is_session server clientId cookieKey o :
  OAuth.new server clientId cookieKey = Normal o → is_session o.
Proof.
  unfold OAuth.new. destruct (negb (truthy server)); [done|].
  destruct (negb (truthy clientId)); [done|]. intros [= <-].
  split; by simplify_map_eq.
Qed.

Lemma get_insert_ne (o : gmap string value) k k' v :
  k ≠ k' → get (<[k:=v]> o) k' = get o k'.
Proof. intros. unfold get. by rewrite lookup_insert_ne. Qed.

Lemma get_insert_eq (o : gmap string value) k v : get (<[k:=v]> o) k = v.
Proof. unfold get. by rewrite lookup_insert_eq. Qed.

Lemma log_log evs1 evs2 w : log evs2 (log evs1 w) = log (evs1 ++ evs2) w.
Proof. unfold log. cbn. by rewrite app_assoc. Qed.

Lemma loose_eq_password type :
  loose_eq type (VStr "password") = bool_decide (type = VStr "password").
Proof.
  destruct type as [| |s]; try done. cbn.
  apply bool_decide_ext. split; [by intros ->|by intros [= ->]].
Qed.

Lemma precondition_passes type username password :
  (type = VStr "password" → truthy username && truthy password = true) →
  loose_eq (default_arg type (VStr "token")) (VStr "password")
  && negb (truthy username && truthy password) = false.
Proof.
  intros Hcred. rewrite loose_eq_password.
  destruct type as [| |s]; try done. cbn [default_arg].
  case_bool_decide as E; [|done]. by rewrite Hcred.
Qed.

(** C6. Fast path. On a session whose in-memory credential is set,
    [login] resolves at once and leaves everything as it was: the
    session, the cookie store, the URL and the trace of calls, so no
    cookie was read or written, the fragment was not read and no request
    was sent. The hypothesis on [type] is the check on user name and
    password, which [login] makes first; [login()] passes it. *)
Theorem login_cached (o : gmap string value) (w : world)
    (type : value) (isTry : bool) (username password : value) :
  is_session o →
  truthy (get o "accessToken") = true →
  (type = VStr "password" → truthy username && truthy password = true) →
  OAuth.call (OAuth.login type isTry username password) o w
  = (Normal tt, State o w (Resolved VUndef)).
Proof.
  intros Ho Htok Hcred. run.
  rewrite (get_TYPE_IMPLICIT o Ho), (get_TYPE_USER_CREDENTIALS o Ho).
  rewrite precondition_passes by done. by rewrite Htok.
Qed.

(** C6 on the example session, once it holds [tok1]. *)
Lemma login_cached_witness :
  OAuth.call (OAuth.login VUndef false VUndef VUndef)
    (<["accessToken":=VStr "tok1"]> example_session) example_world
  = (Normal tt,
     State (<["accessToken":=VStr "tok1"]> example_session) example_world
       (Resolved VUndef)).
Proof.
  apply (login_cached (<["accessToken":=VStr "tok1"]> example_session)
           example_world VUndef false VUndef VUndef);
    [by split|reflexivity|discriminate].
Defined.

(** C5. Try-mode with nothing to find. On a session with no
    in-memory credential, no cookie under its key and an empty fragment,
    [tryLogin] rejects its promise with no reason given and does nothing
    but read the cookie and the fragment: no navigation, no request,
    [location.hash] and [location.href] unchanged. *)
Theorem tryLogin_nothing (o : gmap string value) (w : world) (type : value) :
  is_session o →
  type ≠ VStr "password" →
  truthy (get o "accessToken") = false →
  cookies w !! storage_key o = None →
  substring1 (location_hash w) = "" →
  let r := OAuth.call (OAuth.tryLogin type) o w in
  r = (Normal tt,
       State o (log [CookiesGet (storage_key o); HashRead] w) (Rejected VUndef))
  ∧ filter is_navigation (trace (env r.2)) = filter is_navigation (trace w)
  ∧ filter is_request (trace (env r.2)) = filter is_request (trace w)
  ∧ location_hash (env r.2) = location_hash w
  ∧ location_href (env r.2) = location_href w.
Proof.
  intros Ho Htype Htok Hcookie Hhash r.
  assert (r = (Normal tt,
               State o (log [CookiesGet (storage_key o); HashRead] w)
                 (Rejected VUndef))) as ->.
  { subst r. run.
    rewrite (get_TYPE_IMPLICIT o Ho), (get_TYPE_USER_CREDENTIALS o Ho).
    assert (default_arg (default_arg type (VStr "token")) (VStr "token")
            = default_arg type (VStr "token")) as -> by by destruct type.
    rewrite loose_eq_password.
    rewrite bool_decide_eq_false_2 by (by destruct type).
    cbn [andb]. rewrite Htok. proj. fold (storage_key o). rewrite Hcookie.
    step. rewrite Hhash. step. by rewrite log_log. }
  split; [done|]. cbn [snd env]. proj.
  rewrite !filter_app. cbn. by rewrite !app_nil_r.
Qed.

(** C5 on the example session. *)
Lemma tryLogin_nothing_witness :
  OAuth.call (OAuth.tryLogin VUndef) example_session example_world
  = (Normal tt,
     State example_session (log [CookiesGet "qOAuth2"; HashRead] example_world)
       (Rejected VUndef)).
Proof.
  apply (tryLogin_nothing example_session example_world VUndef
           example_session_is_session);
    [discriminate|reflexivity|reflexivity|reflexivity].
Defined.

(** C10. An unknown grant type. When [type] is none of the three
    grant-type constants and neither the session, nor the cookie store,
    nor the fragment holds a token, [login(type, false)] leaves its
    promise pending: it reads the cookie and the fragment and returns
    through the [default] branch, with no navigation and no request. *)
Theorem login_unknown_type (o : gmap string value) (w : world)
    (type username password : value) :
  is_session o →
  default_arg type (VStr "token")
    ∉ [VStr "client_credentials"; VStr "password"; VStr "token"] →
  truthy (get o "accessToken") = false →
  (∀ c, cookies w !! storage_key o = Some c → c = "") →
  truthy (get (OAuth.decodeHash (substring1 (location_hash w))) "access_token")
    = false →
  let r := OAuth.call (OAuth.login type false username password) o w in
  r = (Normal tt,
       State o
         (log (CookiesGet (storage_key o) :: HashRead
                 :: if decide (substring1 (location_hash w) = "")
                    then [] else [HashRead]) w)
         Pending)
  ∧ filter is_navigation (trace (env r.2)) = filter is_navigation (trace w)
  ∧ filter is_request (trace (env r.2)) = filter is_request (trace w).
Proof.
  intros Ho Htype Htok Hcookie Hhash r.
  assert (default_arg type (VStr "token") ≠ VStr "client_credentials"
          ∧ default_arg type (VStr "token") ≠ VStr "password"
          ∧ default_arg type (VStr "token") ≠ VStr "token") as (Hc & Hp & Hi).
  { set_solver. }
  assert (r = (Normal tt,
       State o
         (log (CookiesGet (storage_key o) :: HashRead
                 :: if decide (substring1 (location_hash w) = "")
                    then [] else [HashRead]) w)
         Pending)) as ->.
  { subst r. run.
    rewrite (get_TYPE_IMPLICIT o Ho), (get_TYPE_USER_CREDENTIALS o Ho).
    rewrite loose_eq_password. unfold strict_eq.
    rewrite !bool_decide_eq_false_2 by done.
    cbn [andb]. rewrite Htok. proj. fold (storage_key o).
    assert (truthy match cookies w !! storage_key o with
                   | Some c => VStr c
                   | None => VUndef
                   end = false) as ->.
    { destruct (cookies w !! storage_key o) as [c|]; [|done].
      by rewrite (Hcookie c). }
    step. destruct (substring1 (location_hash w)) as [|c h] eqn:Hh.
    - step. rewrite (get_TYPE_CLIENT_CREDENTIALS o Ho).
      rewrite !bool_decide_eq_false_2 by done. by rewrite log_log.
    - step. rewrite Hh, Hhash. step. rewrite (get_TYPE_CLIENT_CREDENTIALS o Ho).
      rewrite !bool_decide_eq_false_2 by done. by rewrite !log_log. }
  split; [done|]. cbn [snd env]. proj.
  rewrite !filter_app. destruct (decide _); cbn; by rewrite !app_nil_r.
Qed.

(** C10 on the example session, for the type [refresh_token]. *)
Lemma login_unknown_type_witness :
  OAuth.call (OAuth.login (VStr "refresh_token") false VUndef VUndef)
    example_session example_world
  = (Normal tt,
     State example_session (log [CookiesGet "qOAuth2"; HashRead] example_world)
       Pending).
Proof.
  apply (login_unknown_type example_session example_world
           (VStr "refresh_token") VUndef VUndef example_session_is_session);
    [|reflexivity|discriminate|reflexivity].
  cbn [default_arg]. intros H.
  repeat (apply elem_of_cons in H as [H|H]; [discriminate H|]).
  by apply elem_of_nil in H.
Defined.




(** C2, counterexample. After [login] from the cookie of
    [tok1], [bearer], [read] the session holds the access token and
    nothing else of the triple. *)
Lemma login_from_store_keeps_token_only :
  credential
    (this (OAuth.call (OAuth.login VUndef false VUndef VUndef) example_session
             (store (<["qOAuth2":=btoa "tok1:bearer:read"]>) example_world)).2)
  = (VStr "tok1", VUndef, VUndef)
  ∧ credential
      (this (OAuth.call (OAuth.login VUndef false VUndef VUndef)
               example_session
               (store (<["qOAuth2":=btoa "tok1:bearer:read"]>)
                  example_world)).2)
    ≠ (VStr "tok1", VStr "bearer", VStr "read").
Proof. split; [reflexivity|]. vm_compute. discriminate. Qed.

(** C2, amended. On a session with no in-memory credential whose
    cookie encodes [tok1], [bearer], [read], [login] resolves, sets
    [accessToken] to [tok1] and nothing else on the session (token type
    and scope are not kept in memory), and sets the default
    [Authorization] header to [Bearer tok1]. *)
Theorem login_from_store_tok1 (o : gmap string value) (w : world)
    (type : value) (isTry : bool) (username password : value) :
  is_session o →
  (type = VStr "password" → truthy username && truthy password = true) →
  truthy (get o "accessToken") = false →
  cookies w !! storage_key o
  = Some (OAuth.encode_token
            (<["scope":=VStr "read"]> (<["token_type":=VStr "bearer"]>
               (<["access_token":=VStr "tok1"]> ∅)))) →
  let r := OAuth.call (OAuth.login type isTry username password) o w in
  r = (Normal tt,
       State (<["accessToken":=VStr "tok1"]> o)
         (with_header "Bearer tok1" (log [CookiesGet (storage_key o)] w))
         (Resolved VUndef))
  ∧ credential (this r.2) = (VStr "tok1", get o "tokenType", get o "scope")
  ∧ common_Authorization (env r.2) = Some "Bearer tok1".
Proof.
  intros Ho Hcred Htok Hcookie r.
  assert (r = (Normal tt,
       State (<["accessToken":=VStr "tok1"]> o)
         (with_header "Bearer tok1" (log [CookiesGet (storage_key o)] w))
         (Resolved VUndef))) as ->.
  { subst r. run.
    rewrite (get_TYPE_IMPLICIT o Ho), (get_TYPE_USER_CREDENTIALS o Ho).
    rewrite precondition_passes by done. rewrite Htok. step.
    fold (storage_key o). rewrite Hcookie.
    assert (OAuth.encode_token
              (<["scope":=VStr "read"]> (<["token_type":=VStr "bearer"]>
                 (<["access_token":=VStr "tok1"]> ∅)))
            = "dG9rMTpiZWFyZXI6cmVhZA==") as -> by (by vm_compute).
    step.
    assert (OAuth.decode_cookie "dG9rMTpiZWFyZXI6cmVhZA=="
            = Some ["tok1"; "bearer"; "read"]) as -> by (by vm_compute).
    by step. }
  split; [done|]. cbn [snd this env]. split; [|done].
  unfold credential. rewrite get_insert_eq. by rewrite !get_insert_ne.
Qed.

(** C2, amended, on the example session. *)
Lemma login_from_store_tok1_witness :
  credential
    (this (OAuth.call (OAuth.login VUndef false VUndef VUndef) example_session
             (store (<["qOAuth2":="dG9rMTpiZWFyZXI6cmVhZA=="]>)
                example_world)).2)
  = (VStr "tok1", VUndef, VUndef).
Proof.
  apply (login_from_store_tok1 example_session
           (store (<["qOAuth2":="dG9rMTpiZWFyZXI6cmVhZA=="]>) example_world)
           VUndef false VUndef VUndef example_session_is_session);
    [discriminate|reflexivity|reflexivity].
Defined.

(** C4. What [login] does for the User Credentials grant when no
    secret was set and no token is found: it logs the message on the
    console, sends no request, and leaves its promise pending, neither
    resolved nor rejected. *)
Theorem login_without_secret (o : gmap string value) (w : world)
    (username password : value) :
  is_session o →
  truthy username && truthy password = true →
  truthy (get o "CLIENT_SECRET") = false →
  truthy (get o "accessToken") = false →
  (∀ c, cookies w !! storage_key o = Some c → c = "") →
  truthy (get (OAuth.decodeHash (substring1 (location_hash w))) "access_token")
    = false →
  let r := OAuth.call (OAuth.login (VStr "password") false username password)
             o w in
  r = (Normal tt,
       State o
         (log (CookiesGet (storage_key o) :: HashRead
                 :: (if decide (substring1 (location_hash w) = "")
                     then [] else [HashRead])
                 ++ [ConsoleError "OAuth: please provide the client secret."])
            w)
         Pending)
  ∧ filter is_request (trace (env r.2)) = filter is_request (trace w).
Proof.
  intros Ho Hcred Hsecret Htok Hcookie Hhash r.
  assert (r = (Normal tt,
       State o
         (log (CookiesGet (storage_key o) :: HashRead
                 :: (if decide (substring1 (location_hash w) = "")
                     then [] else [HashRead])
                 ++ [ConsoleError "OAuth: please provide the client secret."])
            w)
         Pending)) as ->.
  { subst r. run.
    rewrite (get_TYPE_IMPLICIT o Ho), (get_TYPE_USER_CREDENTIALS o Ho).
    rewrite precondition_passes by done. rewrite Htok. step.
    fold (storage_key o).
    assert (truthy match cookies w !! storage_key o with
                   | Some c => VStr c
                   | None => VUndef
                   end = false) as ->.
    { destruct (cookies w !! storage_key o) as [c|]; [|done].
      by rewrite (Hcookie c). }
    step. destruct (substring1 (location_hash w)) as [|c h] eqn:Hh.
    - step.
      change (strict_eq (default_arg (VStr "password") (VStr "token"))
                (VStr "password")) with true.
      step. rewrite Hsecret. step. by rewrite !log_log.
    - step. rewrite Hh, Hhash. step.
      change (strict_eq (default_arg (VStr "password") (VStr "token"))
                (VStr "password")) with true.
      step. rewrite Hsecret. step. by rewrite !log_log. }
  split; [done|]. cbn [snd env]. proj.
  rewrite !filter_app. destruct (decide _); cbn; by rewrite !app_nil_r.
Qed.

(** C4 on the example session. *)
Lemma login_without_secret_witness :
  OAuth.call (OAuth.login (VStr "password") false (VStr "alice") (VStr "pw"))
    example_session example_world
  = (Normal tt,
     State example_session
       (log [CookiesGet "qOAuth2"; HashRead;
             ConsoleError "OAuth: please provide the client secret."]
          example_world)
       Pending).
Proof.
  apply (login_without_secret example_session example_world
           (VStr "alice") (VStr "pw") example_session_is_session);
    [reflexivity|reflexivity|reflexivity|discriminate|reflexivity].
Defined.

(** ** The token request *)

Lemma btoa_no_leading_space x y : btoa x ≠ String " " y.
Proof.
  unfold btoa. destruct x as [|c x]; [done|].
  cbn [String.list_ascii_of_string fmap list_fmap].
  assert (N_of_ascii c / 4 < 64)%N as Hn.
  { pose proof (N_ascii_bounded c). euclid. }
  destruct (group_facts _ Hn) as (_ & _ & Hws).
  destruct (N_of_ascii <$> String.list_ascii_of_string x) as [|b [|d l]];
    cbn [encode String.string_of_list_ascii]; intros [= Hc _];
    by rewrite Hc in Hws.
Qed.

(** C9. What the token request carries. Every request that [login]
    sends has for [Authorization] header the text [Basic] immediately
    followed by the base64 text of the globals [CLIENT_ID] and
    [CLIENT_SECRET] joined by [:]; it is never [Basic], a space, and a
    base64 text. *)
Theorem token_request_header (o : gmap string value) (w : world)
    (type : value) (isTry : bool) (username password : value) (r : request) :
  Http r ∈ trace (env (OAuth.call (OAuth.login type isTry username password)
                         o w).2) →
  Http r ∉ trace w →
  (∃ id secret,
     globals w !! "CLIENT_ID" = Some id
     ∧ globals w !! "CLIENT_SECRET" = Some secret
     ∧ Authorization r
       = "Basic" +:+ btoa (to_string id +:+ ":" +:+ to_string secret))
  ∧ ∀ x, Authorization r ≠ "Basic " +:+ btoa x.
Proof.
  intros Hin Hnew.
  cut (∃ id secret,
     globals w !! "CLIENT_ID" = Some id
     ∧ globals w !! "CLIENT_SECRET" = Some secret
     ∧ Authorization r
       = "Basic" +:+ btoa (to_string id +:+ ":" +:+ to_string secret)).
  { intros (id & secret & Hid & Hsecret & Hr). split; [by eauto|].
    intros x Hx. rewrite Hr in Hx.
    change ("Basic " +:+ btoa x) with ("Basic" +:+ String " " (btoa x)) in Hx.
    apply (inj (String.append "Basic")) in Hx.
    by apply btoa_no_leading_space in Hx. }
  revert Hin. run.
  repeat (step;
          match goal with
          | |- context [if ?b then _ else _] => destruct b eqn:?
          | |- context [match OAuth.decode_cookie ?c with _ => _ end] =>
              destruct (OAuth.decode_cookie c) eqn:?
          | |- context [match globals w !! ?k with _ => _ end] =>
              destruct (globals w !! k) eqn:?
          end);
    step; intros Hin.
  all: repeat first
         [ done
         | apply elem_of_nil in Hin
         | apply elem_of_app in Hin as [Hin|Hin]
         | apply elem_of_cons in Hin as [Hin|Hin] ];
       try discriminate Hin.
  all: injection Hin as ->; cbn [Authorization]; eauto.
Qed.

(** C9 on the example session with its secret set, in a page that
    binds the four identifiers: the header sent is not the one of HTTP
    Basic authentication. *)
Lemma token_request_header_witness :
  "BasicYXBwOnMzY3JldA==" ≠ "Basic " +:+ btoa "app:s3cret".
Proof.
  refine (proj2 (token_request_header
           (<["CLIENT_SECRET":=VStr "s3cret"]> example_session)
           example_world_with_globals
           (VStr "client_credentials") false VUndef VUndef
           (Request "POST" "https://example.com/oauth/token"
              "BasicYXBwOnMzY3JldA=="
              (<["grant_type":=VStr "client_credentials"]> ∅)) _ _)
            "app:s3cret").
  - apply list_elem_of_lookup. by exists 2%nat.
  - apply not_elem_of_nil.
Defined.

(** In a page that does not bind [SERVER], building the request
    throws, and [login] with it: nothing is sent. *)
Lemma token_request_unbound :
  OAuth.call (OAuth.login (VStr "client_credentials") false VUndef VUndef)
    (<["CLIENT_SECRET":=VStr "s3cret"]> example_session) example_world
  = (Throw (ReferenceError "SERVER"),
     State (<["CLIENT_SECRET":=VStr "s3cret"]> example_session)
       (log [CookiesGet "qOAuth2"; HashRead] example_world) Pending).
Proof. reflexivity. Qed.

(** ** [decodeHash] *)

Example pieces_of_fragment : pieces "/a=1&b=2&flag" = ["a=1"; "b=2"; "flag"].
Proof. reflexivity. Qed.
Example piece_with_two_equals :
  piece_key "a=b=c" = "a" ∧ piece_value "a=b=c" = VStr "b".
Proof. by split. Qed.
Example piece_without_equals :
  piece_key "flag" = "flag" ∧ piece_value "flag" = VUndef.
Proof. by split. Qed.

Section DecodeHash_facts.

Lemma split_fields piece :
  index (split "=" piece) 0 = VStr (piece_key piece)
  ∧ index (split "=" piece) 1 = piece_value piece.
Proof.
  unfold piece_key, piece_value.
  induction piece as [|c r [IH0 IH1]]; [done|].
  cbn [split before after]. destruct (decide (c = "="%char)) as [->|Hc].
  - split; [done|]. exact IH0.
  - destruct (split "=" r) as [|h t]; [done|].
    cbn in IH0. injection IH0 as ->. split; [done|]. exact IH1.
Qed.

Lemma bind_piece_lookup hashObj piece k :
  OAuth.bind_piece hashObj piece !! k
  = if decide (k ≠ "__proto__" ∧ piece_key piece = k)
    then Some (piece_value piece) else hashObj !! k.
Proof.
  unfold OAuth.bind_piece, set_prop. cbv zeta.
  destruct (split_fields piece) as [-> ->]. cbn [to_string].
  destruct (decide (piece_key piece = "__proto__")) as [Hp|Hp].
  - rewrite decide_False; [done|]. intros [? ?]. congruence.
  - rewrite lookup_insert. destruct (decide (piece_key piece = k)) as [<-|].
    + by rewrite decide_True.
    + rewrite decide_False; [done|]. by intros [? ?].
Qed.

Lemma foldl_bind_lookup l hashObj k :
  foldl OAuth.bind_piece hashObj l !! k
  = if decide (k = "__proto__") then hashObj !! k
    else match last (filter (λ p, piece_key p = k) l) with
         | Some p => Some (piece_value p)
         | None => hashObj !! k
         end.
Proof.
  revert hashObj. induction l as [|p l IH]; intros hashObj.
  { cbn. by destruct (decide _). }
  cbn [foldl]. rewrite IH, bind_piece_lookup.
  destruct (decide (k = "__proto__")) as [->|Hk].
  { rewrite decide_False; [done|]. by intros [? ?]. }
  rewrite filter_cons. destruct (decide (piece_key p = k)) as [Hp|Hp].
  - rewrite decide_True by done. rewrite last_cons.
    by destruct (last (filter _ l)).
  - rewrite decide_False; [done|]. by intros [? ?].
Qed.

End DecodeHash_facts.

(** C3, counterexample. A value that contains [=] is cut at it. *)
Lemma decodeHash_truncates_value :
  OAuth.decodeHash "access_token=abc==" !! "access_token" = Some (VStr "abc")
  ∧ OAuth.decodeHash "access_token=abc==" !! "access_token"
    ≠ Some (VStr "abc==").
Proof. split; [reflexivity|]. vm_compute. discriminate. Qed.

(** C3, amended. [decodeHash] maps a key to the value of the last
    piece with that key, where the pieces are those of the fragment
    less one leading slash, cut at every [&]; the key of a piece is the
    text before its first [=], its value the text between its first and
    second [=], as it stands, and [undefined] without a [=]. The key
    [__proto__] is never bound. The empty fragment has no piece. *)
Theorem decodeHash_lookup (hash k : string) :
  OAuth.decodeHash hash !! k
  = if decide (k = "__proto__") then None
    else piece_value <$> last (filter (λ p, piece_key p = k) (pieces hash)).
Proof.
  unfold OAuth.decodeHash, pieces. destruct hash as [|c r].
  { rewrite lookup_empty. by destruct (decide _). }
  rewrite foldl_bind_lookup, lookup_empty.
  destruct (decide _); [done|]. by destruct (last _).
Qed.

(** ** The session invariant *)

(** The constants of a session are never written: [login], the answer
    to the token request, [setSecret] and [logout] leave a session a
    session. *)
Lemma insert_session (o : gmap string value) (k : string) (v : value) :
  is_session o →
  k ∈ ["accessToken"; "CLIENT_SECRET"] →
  is_session (<[k:=v]> o).
Proof.
  intros [] Hk.
  repeat (apply elem_of_cons in Hk as [->|Hk]);
    [split; by rewrite lookup_insert_ne..|by apply elem_of_nil in Hk].
Qed.

Lemma perform_session (op : operation) (o : gmap string value) (w : world) :
  is_session o → is_session (this (OAuth.call (perform op) o w).2).
Proof.
  intros Ho. destruct op as [type isTry username password|data];
    cbn [perform]; run.
  - repeat (step;
            match goal with
            | |- context [if ?b then _ else _] => destruct b eqn:?
            | |- context [match OAuth.decode_cookie ?c with _ => _ end] =>
                destruct (OAuth.decode_cookie c) eqn:?
            | |- context [match globals w !! ?k with _ => _ end] =>
                destruct (globals w !! k) eqn:?
            end);
      step; try done; apply insert_session; set_solver.
  - step. apply insert_session; set_solver.
Qed.

Lemma setSecret_session (secret : value) (o : gmap string value) (w : world) :
  is_session o → is_session (this (OAuth.call (OAuth.setSecret secret) o w).2).
Proof. intros Ho. step. apply insert_session; set_solver. Qed.

Lemma logout_session (o : gmap string value) (w : world) :
  is_session o → is_session (this (OAuth.call OAuth.logout o w).2).
Proof. intros Ho. step. apply insert_session; set_solver. Qed.

(** ** Further runs *)

(** [login()] with nothing to find: the redirect of the Implicit grant. *)
Example login_redirects :
  OAuth.call (OAuth.login VUndef false VUndef VUndef)
    example_session example_world
  = (Normal tt,
     State example_session
       (log [CookiesGet "qOAuth2"; HashRead; HrefRead;
             HrefAssign
               ("https://example.com/oauth/authorize?response_type=token"
                +:+ "&client_id=app"
                +:+ "&redirect_uri=https%3A%2F%2Fapp.example%2Fpage")]
          example_world)
       Pending).
Proof. reflexivity. Qed.

(** [logout()] after a login from the fragment. *)
Example logout_clears :
  OAuth.call OAuth.logout (<["accessToken":=VStr "tok2"]> example_session)
    (with_header "Bearer tok2"
       (store (<["qOAuth2":="dG9rMjpiZWFyZXI6"]>) example_world))
  = (Normal tt,
     State (<["accessToken":=VNull]> example_session)
       (with_header "Bearer tok2"
          (log [CookiesRemove "qOAuth2"; Reload] example_world))
       Pending).
Proof. reflexivity. Qed.

(** * Further properties *)


(** X1. The constructor succeeds exactly when the server URL and the
    client id are truthy. It then yields a session that carries the
    client id and the cookie key given ([qOAuth2] when none is), with no
    access token and no secret. Otherwise it throws: the message names
    the server URL when that is falsy, the client id otherwise. *)
Theorem new_outcome (server clientId cookieKey : value) :
  match OAuth.new server clientId cookieKey with
  | Normal o =>
      truthy server = true ∧ truthy clientId = true ∧ is_session o
      ∧ get o "CLIENT_ID" = clientId
      ∧ get o "COOKIE_KEY" = default_arg cookieKey (VStr "qOAuth2")
      ∧ get o "accessToken" = VUndef ∧ get o "CLIENT_SECRET" = VUndef
  | Throw e =>
      (truthy server = false
       ∧ e = Error "OAuth: please provide the server URL")
      ∨ (truthy server = true ∧ truthy clientId = false
         ∧ e = Error "OAuth: please provide the client ID")
  end.
Proof.
  unfold OAuth.new. destruct (truthy server); cbn [negb]; [|by left].
  destruct (truthy clientId); cbn [negb]; [|by right].
  repeat split; unfold get; by simplify_map_eq.
Qed.

(** X2. The trailing slash of the server URL is optional: a URL
    that does not end with a slash and the same URL followed by one
    build the same session. *)
Theorem new_trailing_slash (server : string) (clientId cookieKey : value) :
  server ≠ "" →
  JsString.last_char server ≠ Some "/"%char →
  OAuth.new (VStr (server +:+ "/")) clientId cookieKey
  = OAuth.new (VStr server) clientId cookieKey.
Proof.
  intros Hs Hlast. unfold OAuth.new.
  assert (truthy (VStr (server +:+ "/")) = true) as ->.
  { by destruct server. }
  assert (truthy (VStr server) = true) as -> by by destruct server.
  cbn [negb to_string]. destruct (negb (truthy clientId)); [done|].
  rewrite !replace_final_last; [|done|by destruct server].
  rewrite (last_append_char server "/"), decide_True by done.
  by rewrite decide_False.
Qed.

Lemma new_trailing_slash_witness :
  OAuth.new (VStr "https://example.com/") (VStr "app") VUndef
  = OAuth.new (VStr "https://example.com") (VStr "app") VUndef.
Proof.
  apply (new_trailing_slash "https://example.com" (VStr "app") VUndef);
    [discriminate|cbn; discriminate].
Defined.

(** X3. For the User Credentials type, [login] without a user name or
    without a password rejects with the message
    [Username and password not provided] and does nothing else: no
    cookie or fragment is read, and a cached token does not help. So
    does [tryLogin] for that type, which passes neither. *)
Theorem login_missing_credentials (o : gmap string value) (w : world)
    (isTry : bool) (username password : value) :
  is_session o →
  truthy username && truthy password = false →
  OAuth.call (OAuth.login (VStr "password") isTry username password) o w
  = (Normal tt,
     State o w (Rejected (VStr "Username and password not provided")))
  ∧ OAuth.call (OAuth.tryLogin (VStr "password")) o w
    = (Normal tt,
       State o w (Rejected (VStr "Username and password not provided"))).
Proof.
  intros Ho Hcred. split; run;
    rewrite (get_TYPE_IMPLICIT o Ho), (get_TYPE_USER_CREDENTIALS o Ho);
    cbn [default_arg loose_eq]; rewrite ?Hcred; by step.
Qed.

Lemma login_missing_credentials_witness :
  OAuth.call (OAuth.login (VStr "password") false (VStr "alice") VUndef)
    (<["accessToken":=VStr "tok1"]> example_session) example_world
  = (Normal tt,
     State (<["accessToken":=VStr "tok1"]> example_session) example_world
       (Rejected (VStr "Username and password not provided"))).
Proof.
  refine (proj1 (login_missing_credentials
                   (<["accessToken":=VStr "tok1"]> example_session)
                   example_world false (VStr "alice") VUndef _ eq_refl)).
  by split.
Defined.

Lemma cookie_falsy (w : world) (key : string) :
  (∀ c, cookies w !! key = Some c → c = "") →
  truthy match cookies w !! key with
         | Some c => VStr c
         | None => VUndef
         end = false.
Proof.
  intros H. destruct (cookies w !! key) as [c|]; [|done]. by rewrite (H c).
Qed.

Lemma get_AUTHORIZE (o : gmap string value) :
  is_session o → get o "AUTHORIZE" = VStr "authorize".
Proof. intros Ho. unfold get. by rewrite (session_authorize o Ho). Qed.

Lemma no_token_no_hash (h : string) :
  truthy (get (OAuth.decodeHash h) "access_token") = true → h ≠ "".
Proof. by destruct h. Qed.

(** X4. The redirect of the Implicit grant. With no token in the
    session, the cookie store or the fragment, [login] of the Implicit
    type, not in try mode, assigns [window.location.href] once, to the
    session's [SERVER] followed by
    [authorize?response_type=token&client_id=CLIENT_ID&redirect_uri=]
    and the encoded current URL; it sends no request and leaves its
    promise pending. *)
Theorem login_redirect (o : gmap string value) (w : world)
    (type username password : value) :
  is_session o →
  default_arg type (VStr "token") = VStr "token" →
  truthy (get o "accessToken") = false →
  (∀ c, cookies w !! storage_key o = Some c → c = "") →
  truthy (get (OAuth.decodeHash (substring1 (location_hash w))) "access_token")
    = false →
  let r := OAuth.call (OAuth.login type false username password) o w in
  let target :=
    to_string (get o "SERVER") +:+ "authorize"
    +:+ "?response_type=token&client_id=" +:+ to_string (get o "CLIENT_ID")
    +:+ "&redirect_uri=" +:+ Uri.encodeURIComponent (location_href w) in
  r = (Normal tt,
       State o
         (log (CookiesGet (storage_key o) :: HashRead
                 :: (if decide (substring1 (location_hash w) = "")
                     then [] else [HashRead])
                 ++ [HrefRead; HrefAssign target]) w)
         Pending)
  ∧ filter is_navigation (trace (env r.2))
    = filter is_navigation (trace w) ++ [HrefAssign target]
  ∧ filter is_request (trace (env r.2)) = filter is_request (trace w).
Proof.
  intros Ho Htype Htok Hcookie Hhash r target.
  assert (r = (Normal tt,
       State o
         (log (CookiesGet (storage_key o) :: HashRead
                 :: (if decide (substring1 (location_hash w) = "")
                     then [] else [HashRead])
                 ++ [HrefRead; HrefAssign target]) w)
         Pending)) as ->.
  { subst r target. run.
    rewrite (get_TYPE_IMPLICIT o Ho), (get_TYPE_USER_CREDENTIALS o Ho).
    rewrite precondition_passes by (intros ->; discriminate Htype).
    rewrite Htype, Htok. step. fold (storage_key o).
    rewrite cookie_falsy by done. step.
    assert (concat (get o "SERVER") (get o "AUTHORIZE")
            +:+ "?"
            +:+ join "&"
                  ((λ p, p.1 +:+ "=" +:+ to_string p.2)
                     <$> [("response_type", VStr "token");
                          ("client_id", get o "CLIENT_ID");
                          ("redirect_uri",
                           VStr (Uri.encodeURIComponent (location_href w)))])
            = to_string (get o "SERVER") +:+ "authorize"
              +:+ "?response_type=token&client_id="
              +:+ to_string (get o "CLIENT_ID")
              +:+ "&redirect_uri="
              +:+ Uri.encodeURIComponent (location_href w)) as Hurl.
    { unfold concat. rewrite (get_AUTHORIZE o Ho).
      cbn [fmap list_fmap join fst snd to_string].
      by rewrite !append_assoc. }
    destruct (substring1 (location_hash w)) as [|c h] eqn:Hh.
    - step. rewrite (get_TYPE_CLIENT_CREDENTIALS o Ho). step.
      change (strict_eq (VStr "token") (VStr "password")) with false.
      change (strict_eq (VStr "token") (VStr "client_credentials")) with false.
      change (strict_eq (VStr "token") (VStr "token")) with true.
      step. rewrite Hurl. by rewrite !log_log.
    - step. rewrite Hh, Hhash. step.
      rewrite (get_TYPE_CLIENT_CREDENTIALS o Ho).
      change (strict_eq (VStr "token") (VStr "password")) with false.
      change (strict_eq (VStr "token") (VStr "client_credentials")) with false.
      change (strict_eq (VStr "token") (VStr "token")) with true.
      step. rewrite Hurl. by rewrite !log_log. }
  split; [done|]. cbn [snd env]. proj.
  rewrite !filter_app. destruct (decide _); cbn; by rewrite !app_nil_r.
Qed.

Lemma login_redirect_witness :
  OAuth.call (OAuth.login VUndef false VUndef VUndef)
    example_session example_world
  = (Normal tt,
     State example_session
       (log [CookiesGet "qOAuth2"; HashRead; HrefRead;
             HrefAssign
               ("https://example.com/oauth/authorize?response_type=token"
                +:+ "&client_id=app"
                +:+ "&redirect_uri=https%3A%2F%2Fapp.example%2Fpage")]
          example_world)
       Pending).
Proof.
  apply (login_redirect example_session example_world VUndef VUndef VUndef
           example_session_is_session);
    [reflexivity|reflexivity|discriminate|reflexivity].
Defined.

Lemma log_with_hash (h : string) (evs : list event) (w : world) :
  log evs (with_hash h w) = with_hash h (log evs w).
Proof. done. Qed.

Lemma login_from_fragment_run (o : gmap string value) (w : world)
    (type : value) (isTry : bool) (username password : value) :
  is_session o →
  (type = VStr "password" → truthy username && truthy password = true) →
  truthy (get o "accessToken") = false →
  (∀ c, cookies w !! storage_key o = Some c → c = "") →
  truthy (get (OAuth.decodeHash (substring1 (location_hash w))) "access_token")
    = true →
  OAuth.call (OAuth.login type isTry username password) o w
  = (Normal tt, after_fragment o w).
Proof.
  intros Ho Hcred Htok Hcookie Hhash. unfold after_fragment. run.
  rewrite (get_TYPE_IMPLICIT o Ho), (get_TYPE_USER_CREDENTIALS o Ho).
  rewrite precondition_passes by done. rewrite Htok. step.
  fold (storage_key o). rewrite cookie_falsy by done. step.
  destruct (substring1 (location_hash w)) as [|c h] eqn:Hh; [done|].
  step. rewrite Hh, Hhash. step.
  destruct (ngRoute w); step; rewrite !get_insert_ne by done;
    fold (storage_key o); rewrite log_with_hash, !log_log; cbn [app];
    reflexivity.
Qed.



(** X6. After a login from the fragment, a further [login] resolves
    at once and changes nothing, the trace of calls included. *)
Theorem login_twice (o : gmap string value) (w : world)
    (type type' : value) (isTry isTry' : bool)
    (username password username' password' : value) :
  is_session o →
  (type = VStr "password" → truthy username && truthy password = true) →
  (type' = VStr "password" → truthy username' && truthy password' = true) →
  truthy (get o "accessToken") = false →
  (∀ c, cookies w !! storage_key o = Some c → c = "") →
  truthy (get (OAuth.decodeHash (substring1 (location_hash w))) "access_token")
    = true →
  let st := (OAuth.call (OAuth.login type isTry username password) o w).2 in
  OAuth.call (OAuth.login type' isTry' username' password') (this st) (env st)
  = (Normal tt, st).
Proof.
  intros Ho Hcred Hcred' Htok Hcookie Hhash st. subst st.
  rewrite (login_from_fragment_run o w type isTry username password) by done. unfold after_fragment.
  cbn [snd this env]. run. rewrite !get_insert_ne by done.
  rewrite (get_TYPE_IMPLICIT o Ho), (get_TYPE_USER_CREDENTIALS o Ho).
  rewrite precondition_passes by done. rewrite get_insert_eq, Hhash.
  by step.
Qed.

Lemma login_twice_witness :
  OAuth.call (OAuth.login VUndef false VUndef VUndef)
    (<["accessToken":=VStr "tok2"]> example_session)
    (with_header "Bearer tok2"
       (store (<["qOAuth2":="dG9rMjpiZWFyZXI6"]>)
          (log [CookiesGet "qOAuth2"; HashRead; HashRead; HashAssign "";
                CookiesPut "qOAuth2" "dG9rMjpiZWFyZXI6" VUndef]
             example_world)))
  = (Normal tt,
     State (<["accessToken":=VStr "tok2"]> example_session)
       (with_header "Bearer tok2"
          (store (<["qOAuth2":="dG9rMjpiZWFyZXI6"]>)
             (log [CookiesGet "qOAuth2"; HashRead; HashRead; HashAssign "";
                   CookiesPut "qOAuth2" "dG9rMjpiZWFyZXI6" VUndef]
                example_world)))
       (Resolved VUndef)).
Proof.
  apply (login_twice example_session
           (with_hash "#access_token=tok2&token_type=bearer" example_world)
           VUndef VUndef false false VUndef VUndef VUndef VUndef
           example_session_is_session);
    [discriminate|discriminate|reflexivity|discriminate|reflexivity].
Defined.

(** X7. [logout] sets the access token to [null], removes the
    session's cookie, and reloads the page once. It does not touch the
    default [Authorization] header, which stays armed until the reload
    takes effect. *)
Theorem logout_effect (o : gmap string value) (w : world) :
  let r := OAuth.call OAuth.logout o w in
  r.1 = Normal tt
  ∧ this r.2 = <["accessToken":=VNull]> o
  ∧ truthy (get (this r.2) "accessToken") = false
  ∧ cookies (env r.2) = delete (storage_key o) (cookies w)
  ∧ cookies (env r.2) !! storage_key o = None
  ∧ trace (env r.2) = trace w ++ [CookiesRemove (storage_key o); Reload]
  ∧ common_Authorization (env r.2) = common_Authorization w
  ∧ withCredentials (env r.2) = withCredentials w.
Proof.
  intros r. subst r. step.
  rewrite !(get_insert_ne _ "accessToken" "COOKIE_KEY") by done.
  fold (storage_key o). rewrite get_insert_eq.
  split_and!; try done.
  - apply lookup_delete_eq.
  - by rewrite <-app_assoc.
Qed.

(** X8. After [logout], whatever the session and the store held,
    [tryLogin] finds nothing: with no token in the fragment it rejects,
    and it makes no navigation and no request of its own. *)
Theorem logout_then_tryLogin (o : gmap string value) (w : world)
    (type : value) :
  is_session o →
  type ≠ VStr "password" →
  truthy (get (OAuth.decodeHash (substring1 (location_hash w))) "access_token")
    = false →
  let st := (OAuth.call OAuth.logout o w).2 in
  let r := OAuth.call (OAuth.tryLogin type) (this st) (env st) in
  r.1 = Normal tt
  ∧ promise r.2 = Rejected VUndef
  ∧ this r.2 = this st
  ∧ cookies (env r.2) = cookies (env st)
  ∧ common_Authorization (env r.2) = common_Authorization w
  ∧ filter is_navigation (trace (env r.2))
    = filter is_navigation (trace w) ++ [Reload]
  ∧ filter is_request (trace (env r.2)) = filter is_request (trace w).
Proof.
  intros Ho Htype Hhash st r. subst r st. step.
  rewrite !get_insert_ne by done. fold (storage_key o).
  rewrite (get_TYPE_IMPLICIT o Ho), (get_TYPE_USER_CREDENTIALS o Ho).
  assert (default_arg (default_arg type (VStr "token")) (VStr "token")
          = default_arg type (VStr "token")) as -> by by destruct type.
  rewrite loose_eq_password, bool_decide_eq_false_2 by (by destruct type).
  step. rewrite get_insert_eq. step.
  rewrite !(get_insert_ne _ "accessToken" "COOKIE_KEY") by done.
  fold (storage_key o). rewrite lookup_delete_eq. step.
  destruct (substring1 (location_hash w)) as [|c h] eqn:Hh.
  - step. split_and!; try done; rewrite !filter_app; cbn;
      by rewrite ?app_nil_r.
  - step. rewrite Hh, Hhash. step.
    split_and!; try done; rewrite !filter_app; cbn; by rewrite ?app_nil_r.
Qed.

Lemma logout_then_tryLogin_witness :
  promise
    (OAuth.call (OAuth.tryLogin VUndef)
       (this (OAuth.call OAuth.logout
                (<["accessToken":=VStr "tok2"]> example_session)
                (store (<["qOAuth2":="dG9rMjpiZWFyZXI6"]>) example_world)).2)
       (env (OAuth.call OAuth.logout
               (<["accessToken":=VStr "tok2"]> example_session)
               (store (<["qOAuth2":="dG9rMjpiZWFyZXI6"]>) example_world)).2)).2
  = Rejected VUndef.
Proof.
  apply (logout_then_tryLogin
           (<["accessToken":=VStr "tok2"]> example_session)
           (store (<["qOAuth2":="dG9rMjpiZWFyZXI6"]>) example_world) VUndef);
    [by split|discriminate|reflexivity].
Defined.

(** X10. A cookie that is not base64 text makes [login] throw
    [InvalidCharacterError]: the session and the header are left as they
    were, the promise is neither resolved nor rejected, and the cookie
    stays in the store. *)
Theorem login_corrupt_cookie (o : gmap string value) (w : world)
    (type : value) (isTry : bool) (username password : value)
    (cookie : string) :
  is_session o →
  (type = VStr "password" → truthy username && truthy password = true) →
  truthy (get o "accessToken") = false →
  cookies w !! storage_key o = Some cookie →
  cookie ≠ "" →
  atob cookie = None →
  OAuth.call (OAuth.login type isTry username password) o w
  = (Throw InvalidCharacterError,
     State o (log [CookiesGet (storage_key o)] w) Pending).
Proof.
  intros Ho Hcred Htok Hcookie Hne Hbad. run.
  rewrite (get_TYPE_IMPLICIT o Ho), (get_TYPE_USER_CREDENTIALS o Ho).
  rewrite precondition_passes by done. rewrite Htok. step.
  fold (storage_key o). rewrite Hcookie.
  destruct cookie as [|c cookie]; [done|]. step.
  unfold OAuth.decode_cookie. rewrite Hbad. by step.
Qed.

Lemma login_corrupt_cookie_witness :
  OAuth.call (OAuth.login VUndef false VUndef VUndef) example_session
    (store (<["qOAuth2":="tok1:bearer:read"]>) example_world)
  = (Throw InvalidCharacterError,
     State example_session
       (log [CookiesGet "qOAuth2"]
          (store (<["qOAuth2":="tok1:bearer:read"]>) example_world))
       Pending).
Proof.
  apply (login_corrupt_cookie example_session
           (store (<["qOAuth2":="tok1:bearer:read"]>) example_world)
           VUndef false VUndef VUndef "tok1:bearer:read"
           example_session_is_session);
    [discriminate|reflexivity|reflexivity|discriminate|reflexivity].
Defined.

Lemma index_split_0 c s : index (split c s) 0 = VStr (before c s).
Proof.
  induction s as [|d s IH]; [done|]. cbn [split before].
  destruct (decide (d = c)); [done|].
  destruct (split c s) as [|h t]; [done|]. cbn in IH. by injection IH as ->.
Qed.

Lemma before_append c a r : before c (a +:+ String c r) = before c a.
Proof.
  induction a as [|d a IH]; cbn [before].
  - rewrite append_nil_l. cbn [before]. by rewrite decide_True.
  - rewrite append_cons. cbn [before]. destruct (decide (d = c)); [done|].
    by rewrite IH.
Qed.

Lemma before_no_sep c s : mem c s = false → before c s = s.
Proof.
  induction s as [|d s IH]; [done|]. cbn [mem before].
  destruct (decide (d = c)); [done|]. by intros ->%IH.
Qed.










(** X12. The token exchange needs the four globals. When [login]
    reaches the exchange (a secret is set, no token is found) and one
    of [SERVER], [TOKEN], [CLIENT_ID], [CLIENT_SECRET] is not bound in
    the global scope, it throws a [ReferenceError] naming an unbound
    one, sends no request and leaves the promise pending. *)
Theorem login_unbound_global (o : gmap string value) (w : world)
    (type username password : value) (name : string) :
  is_session o →
  type = VStr "client_credentials"
  ∨ (type = VStr "password" ∧ truthy username && truthy password = true) →
  truthy (get o "CLIENT_SECRET") = true →
  truthy (get o "accessToken") = false →
  (∀ c, cookies w !! storage_key o = Some c → c = "") →
  truthy (get (OAuth.decodeHash (substring1 (location_hash w))) "access_token")
    = false →
  name ∈ ["SERVER"; "TOKEN"; "CLIENT_ID"; "CLIENT_SECRET"] →
  globals w !! name = None →
  let r := OAuth.call (OAuth.login type false username password) o w in
  ∃ unbound,
    unbound ∈ ["SERVER"; "TOKEN"; "CLIENT_ID"; "CLIENT_SECRET"]
    ∧ globals w !! unbound = None
    ∧ r = (Throw (ReferenceError unbound),
           State o
             (log (CookiesGet (storage_key o) :: HashRead
                     :: if decide (substring1 (location_hash w) = "")
                        then [] else [HashRead]) w)
             Pending)
    ∧ filter is_request (trace (env r.2)) = filter is_request (trace w).
Proof.
  intros Ho Htype Hsecret Htok Hcookie Hhash Hname Hnone r.
  assert (∃ unbound,
    unbound ∈ ["SERVER"; "TOKEN"; "CLIENT_ID"; "CLIENT_SECRET"]
    ∧ globals w !! unbound = None
    ∧ r = (Throw (ReferenceError unbound),
           State o
             (log (CookiesGet (storage_key o) :: HashRead
                     :: if decide (substring1 (location_hash w) = "")
                        then [] else [HashRead]) w)
             Pending)) as (unbound & Hin & Hun & ->).
  { subst r.
    assert (type = VStr "password"
            → truthy username && truthy password = true) as Hcred.
    { intros Hp. destruct Htype as [Hc|[_ Hc]]; [congruence|done]. }
    destruct (globals w !! "SERVER") as [server|] eqn:HS;
      [destruct (globals w !! "TOKEN") as [token|] eqn:HT;
       [destruct (globals w !! "CLIENT_ID") as [id|] eqn:HI;
        [destruct (globals w !! "CLIENT_SECRET") as [secret|] eqn:HC;
         [exfalso; repeat (apply elem_of_cons in Hname as [->|Hname]);
          [congruence..|by apply elem_of_nil in Hname]
         |exists "CLIENT_SECRET"]
        |exists "CLIENT_ID"]
       |exists "TOKEN"]
      |exists "SERVER"].
    all: split;
      [repeat first [apply list_elem_of_here | apply list_elem_of_further]|];
      split; [done|]; run.
    all: rewrite (get_TYPE_IMPLICIT o Ho), (get_TYPE_USER_CREDENTIALS o Ho).
    all: rewrite precondition_passes by done.
    all: rewrite Htok; step; fold (storage_key o).
    all: rewrite cookie_falsy by done; step.
    all: destruct (substring1 (location_hash w)) as [|c h] eqn:Hh;
      [|step; rewrite Hh, Hhash]; step;
      rewrite (get_TYPE_CLIENT_CREDENTIALS o Ho);
      (destruct Htype as [->|[-> _]]; cbn [default_arg];
       [change (strict_eq (VStr "client_credentials") (VStr "password"))
          with false;
        change (strict_eq (VStr "client_credentials")
                  (VStr "client_credentials")) with true
       |change (strict_eq (VStr "password") (VStr "password")) with true]);
      step; rewrite Hsecret;
      repeat (progress (step; rewrite ?HS, ?HT, ?HI, ?HC));
      rewrite ?log_log; reflexivity. }
  exists unbound. split_and!; try done.
  cbn [snd env]. proj. rewrite !filter_app.
  destruct (decide _); cbn; by rewrite !app_nil_r.
Qed.

Lemma login_unbound_global_witness :
  ∃ unbound,
    OAuth.call (OAuth.login (VStr "client_credentials") false VUndef VUndef)
      (<["CLIENT_SECRET":=VStr "s3cret"]> example_session) example_world
    = (Throw (ReferenceError unbound),
       State (<["CLIENT_SECRET":=VStr "s3cret"]> example_session)
         (log [CookiesGet "qOAuth2"; HashRead] example_world) Pending).
Proof.
  destruct (login_unbound_global
              (<["CLIENT_SECRET":=VStr "s3cret"]> example_session)
              example_world (VStr "client_credentials") VUndef VUndef "TOKEN")
    as (unbound & _ & _ & H & _).
  - by split.
  - by left.
  - reflexivity.
  - reflexivity.
  - discriminate.
  - reflexivity.
  - apply list_elem_of_lookup. by exists 1%nat.
  - reflexivity.
  - exists unbound. exact H.
Defined.



Section Fragment_facts.

Lemma mem_append c a b : mem c (a +:+ b) = mem c a || mem c b.
Proof.
  induction a as [|d a IH]; [done|]. rewrite append_cons. cbn [mem].
  by destruct (decide (d = c)).
Qed.

Lemma after_append c a r : mem c a = false → after c (a +:+ String c r) = Some r.
Proof.
  induction a as [|d a IH]; cbn [mem].
  - intros _. rewrite append_nil_l. cbn [after]. by rewrite decide_True.
  - rewrite append_cons. cbn [after]. by destruct (decide (d = c)).
Qed.

Lemma piece_of_pair k v :
  plain k → plain v →
  piece_key (k +:+ "=" +:+ v) = k
  ∧ piece_value (k +:+ "=" +:+ v) = VStr v
  ∧ mem "&" (k +:+ "=" +:+ v) = false.
Proof.
  intros [Hk1 Hk2] [Hv1 Hv2]. unfold piece_key, piece_value.
  rewrite append_cons, append_nil_l.
  rewrite before_append, after_append, !before_no_sep by done.
  split; [done|]. split; [done|]. rewrite mem_append, Hk1. cbn [mem orb].
  by rewrite decide_False.
Qed.

Lemma split_join sep ps :
  ps ≠ [] → Forall (λ p, mem sep p = false) ps →
  split sep (join (String sep "") ps) = ps.
Proof.
  intros Hne Hps. induction Hps as [|p ps Hp Hps IH]; [done|].
  destruct ps as [|q ps].
  - cbn [join]. by apply split_no_sep.
  - change (join (String sep "") (p :: q :: ps))
      with (p +:+ String sep "" +:+ join (String sep "") (q :: ps)).
    rewrite append_cons, append_nil_l, split_append_sep by done.
    by rewrite IH.
Qed.

Lemma fragment_of_head l :
  l ≠ [] → Forall (λ p, mem "/" p.1 = false) l →
  ∃ c r, fragment_of l = String c r ∧ c ≠ "/"%char.
Proof.
  unfold fragment_of. destruct l as [|[k v] l]; [done|].
  intros _ Hl. inversion_clear Hl as [|?? Hk _]. cbn [fst] in Hk.
  assert (∀ rest, ∃ c r, k +:+ "=" +:+ rest = String c r ∧ c ≠ "/"%char)
    as Hhead.
  { intros rest. destruct k as [|d k].
    - rewrite append_nil_l, append_cons. by eexists _, _.
    - rewrite append_cons. eexists _, _. split; [done|]. cbn [mem] in Hk.
      by destruct (decide (d = "/"%char)). }
  destruct l as [|q l]; cbn [fmap list_fmap join fst snd].
  - apply Hhead.
  - rewrite append_assoc, append_assoc. apply Hhead.
Qed.

Lemma filter_key_absent k (l : list (string * string)) :
  Forall (λ p, plain p.1 ∧ plain p.2) l →
  k ∉ l.*1 →
  filter (λ p, piece_key p = k) ((λ p, p.1 +:+ "=" +:+ p.2) <$> l) = [].
Proof.
  induction 1 as [|[k' v'] l [Hk Hv] Hl IH]; [done|].
  cbn [fmap list_fmap fst snd]. intros Hnot.
  apply not_elem_of_cons in Hnot as [Hne Hnot].
  destruct (piece_of_pair k' v' Hk Hv) as (Hkey & _ & _).
  rewrite filter_cons_False by (cbn; congruence). by apply IH.
Qed.

Lemma filter_key_present k v (l : list (string * string)) :
  Forall (λ p, plain p.1 ∧ plain p.2) l →
  NoDup l.*1 →
  (k, v) ∈ l →
  filter (λ p, piece_key p = k) ((λ p, p.1 +:+ "=" +:+ p.2) <$> l)
  = [k +:+ "=" +:+ v].
Proof.
  induction 1 as [|[k' v'] l [Hk Hv] Hl IH]; [by intros _ ?%elem_of_nil|].
  cbn [fmap list_fmap fst snd]. intros [Hfresh Hnodup]%NoDup_cons Hin.
  destruct (piece_of_pair k' v' Hk Hv) as (Hkey & _ & _).
  apply elem_of_cons in Hin as [[= -> ->]|Hin].
  - rewrite filter_cons_True by done. by rewrite filter_key_absent.
  - rewrite filter_cons_False; [by apply IH|]. cbn. rewrite Hkey.
    intros ->. apply Hfresh. apply list_elem_of_fmap. by exists (k, v).
Qed.

End Fragment_facts.

(** X14. On a fragment [k1=v1&...&kn=vn] with distinct keys, where
    keys and values hold neither [&] nor [=] and keys no [/],
    [decodeHash] binds each key to its value, with or without the
    leading slash a router adds. *)
Theorem decodeHash_fragment_of (l : list (string * string)) (k v : string) :
  Forall (λ p, plain p.1 ∧ plain p.2) l →
  Forall (λ p, mem "/" p.1 = false) l →
  NoDup l.*1 →
  (k, v) ∈ l →
  k ≠ "__proto__" →
  OAuth.decodeHash (fragment_of l) !! k = Some (VStr v)
  ∧ OAuth.decodeHash ("/" +:+ fragment_of l) !! k = Some (VStr v).
Proof.
  intros Hplain Hslash Hnodup Hin Hk.
  assert (split "&" (fragment_of l) = (λ p, p.1 +:+ "=" +:+ p.2) <$> l)
    as Hsplit.
  { apply split_join.
    - destruct l; [by apply elem_of_nil in Hin|done].
    - apply Forall_fmap. eapply Forall_impl; [exact Hplain|].
      intros [k' v'] [Hk' Hv']. cbn. by apply piece_of_pair. }
  assert (foldl OAuth.bind_piece ∅ (split "&" (fragment_of l)) !! k
          = Some (VStr v)) as Hfold.
  { rewrite foldl_bind_lookup, decide_False by done.
    rewrite Hsplit, (filter_key_present k v) by done. cbn [last].
    f_equal. apply piece_of_pair; by
      (rewrite Forall_forall in Hplain; destruct (Hplain _ Hin)). }
  split.
  - destruct (fragment_of_head l) as (c & r & Hf & Hc); [|done|].
    { destruct l; [by apply elem_of_nil in Hin|done]. }
    unfold OAuth.decodeHash. rewrite Hf in *. by rewrite decide_False.
  - rewrite append_cons, append_nil_l. unfold OAuth.decodeHash.
    by rewrite decide_True.
Qed.

Lemma decodeHash_fragment_of_witness :
  OAuth.decodeHash "access_token=tok2&token_type=bearer&expires_in=3600"
    !! "token_type"
  = Some (VStr "bearer").
Proof.
  refine (proj1 (decodeHash_fragment_of
            [("access_token", "tok2"); ("token_type", "bearer");
             ("expires_in", "3600")] "token_type" "bearer" _ _ _ _ _)).
  - by repeat constructor.
  - by repeat constructor.
  - apply (bool_decide_unpack _). by vm_compute.
  - apply list_elem_of_lookup. by exists 1%nat.
  - discriminate.
Defined.








(** X17. Login from a cookie, whatever it holds. When the cookie
    decodes to a text, [login] resolves with, as credential, that text
    up to its first [:] (possibly the empty string), and arms the
    header with it; the store and the fragment are not changed, and
    there is no navigation and no request. *)
Theorem login_from_cookie (o : gmap string value) (w : world)
    (type : value) (isTry : bool) (username password : value)
    (cookie text : string) :
  is_session o →
  (type = VStr "password" → truthy username && truthy password = true) →
  truthy (get o "accessToken") = false →
  cookies w !! storage_key o = Some cookie →
  cookie ≠ "" →
  atob cookie = Some text →
  let r := OAuth.call (OAuth.login type isTry username password) o w in
  let token := before ":" text in
  r = (Normal tt,
       State (<["accessToken":=VStr token]> o)
         (with_header ("Bearer " +:+ token)
            (log [CookiesGet (storage_key o)] w))
         (Resolved VUndef))
  ∧ cookies (env r.2) = cookies w
  ∧ location_hash (env r.2) = location_hash w
  ∧ filter is_navigation (trace (env r.2)) = filter is_navigation (trace w)
  ∧ filter is_request (trace (env r.2)) = filter is_request (trace w).
Proof.
  intros Ho Hcred Htok Hcookie Hne Htext r token.
  assert (r = (Normal tt,
       State (<["accessToken":=VStr token]> o)
         (with_header ("Bearer " +:+ token)
            (log [CookiesGet (storage_key o)] w))
         (Resolved VUndef))) as ->.
  { subst r token. run.
    rewrite (get_TYPE_IMPLICIT o Ho), (get_TYPE_USER_CREDENTIALS o Ho).
    rewrite precondition_passes by done. rewrite Htok. step.
    fold (storage_key o). rewrite Hcookie.
    destruct cookie as [|c cookie]; [done|]. step.
    unfold OAuth.decode_cookie. rewrite Htext.
    cbn [fmap option_fmap option_map]. rewrite index_split_0. by step. }
  split; [done|]. cbn [snd env]. proj. split_and!; try done.
  - rewrite filter_app. cbn. by rewrite app_nil_r.
  - rewrite filter_app. cbn. by rewrite app_nil_r.
Qed.

Lemma login_from_cookie_witness :
  OAuth.call (OAuth.login VUndef false VUndef VUndef) example_session
    (store (<["qOAuth2":="OmJlYXJlcjpyZWFk"]>) example_world)
  = (Normal tt,
     State (<["accessToken":=VStr ""]> example_session)
       (with_header "Bearer "
          (log [CookiesGet "qOAuth2"]
             (store (<["qOAuth2":="OmJlYXJlcjpyZWFk"]>) example_world)))
       (Resolved VUndef)).
Proof.
  apply (login_from_cookie example_session
           (store (<["qOAuth2":="OmJlYXJlcjpyZWFk"]>) example_world)
           VUndef false VUndef VUndef "OmJlYXJlcjpyZWFk" ":bearer:read"
           example_session_is_session);
    [discriminate|reflexivity|reflexivity|discriminate|reflexivity].
Defined.

(** X18. Try mode with a fragment that holds no token (the path of a
    router, say): [tryLogin] rejects with no reason, having only read
    the cookie and the fragment. *)
Theorem tryLogin_no_token (o : gmap string value) (w : world) (type : value) :
  is_session o →
  type ≠ VStr "password" →
  truthy (get o "accessToken") = false →
  (∀ c, cookies w !! storage_key o = Some c → c = "") →
  truthy (get (OAuth.decodeHash (substring1 (location_hash w))) "access_token")
    = false →
  OAuth.call (OAuth.tryLogin type) o w
  = (Normal tt,
     State o
       (log (CookiesGet (storage_key o) :: HashRead
               :: if decide (substring1 (location_hash w) = "")
                  then [] else [HashRead]) w)
       (Rejected VUndef)).
Proof.
  intros Ho Htype Htok Hcookie Hhash. run.
  rewrite (get_TYPE_IMPLICIT o Ho), (get_TYPE_USER_CREDENTIALS o Ho).
  assert (default_arg (default_arg type (VStr "token")) (VStr "token")
          = default_arg type (VStr "token")) as -> by by destruct type.
  rewrite loose_eq_password, bool_decide_eq_false_2 by (by destruct type).
  step. rewrite Htok. step. fold (storage_key o).
  rewrite cookie_falsy by done. step.
  destruct (substring1 (location_hash w)) as [|c h] eqn:Hh.
  - step. by rewrite log_log.
  - step. rewrite Hh, Hhash. step. by rewrite !log_log.
Qed.

Lemma tryLogin_no_token_witness :
  OAuth.call (OAuth.tryLogin VUndef) example_session
    (with_hash "#/home" example_world)
  = (Normal tt,
     State example_session
       (log [CookiesGet "qOAuth2"; HashRead; HashRead]
          (with_hash "#/home" example_world))
       (Rejected VUndef)).
Proof.
  apply (tryLogin_no_token example_session (with_hash "#/home" example_world)
           VUndef example_session_is_session);
    [discriminate|reflexivity|discriminate|reflexivity].
Defined.
